(** * A rotating cube on WebGPU: the program of [src/main.js], embedded

    [main.js] is one module: a linear set-up (adapter, device, shader,
    canvas, buffers, pipeline, depth texture, bind group) followed by the
    animation callback [frame], which re-registers itself.  Everything the
    module touches lives outside of it (the DOM canvas, the GPU device, the
    animation-callback list), so the embedding is a state-and-exception
    monad over an explicit [World]; the module-level bindings are the
    record [Globals].

    Numbers are IEEE-754 binary64 values ([spec_float] at precision 53),
    the canvas attributes follow the [unsigned long] reflection rules of
    the HTML standard, buffers hold bytes, and every host call leaves an
    [Event] in the world's trace. *)

From stdpp Require Import gmap strings.
From Stdlib Require Import ZArith List Bool Lia.
From Stdlib Require Import Floats.SpecFloat.
Import ListNotations.
Open Scope Z_scope.

(** ** JavaScript numbers *)

Module JS.

Definition number := spec_float.

Definition prec := 53.
Definition emax := 1024.

(** The double nearest to [m * 2^e]. *)
Definition dyadic (m e : Z) : number := binary_normalize prec emax m e false.

(** An integer read as a Number (exact below 2^53). *)
Definition of_Z (z : Z) : number := dyadic z 0.

(** [x + y], [x * y] and [x / y]. *)
Definition add (x y : number) : number := SFadd prec emax x y.
Definition mul (x y : number) : number := SFmul prec emax x y.
Definition div (x y : number) : number := SFdiv prec emax x y.

(** [x === y] on Numbers: NaN equals nothing, +0 equals -0. *)
Definition strict_eq (x y : number) : bool := SFeqb x y.

(** [ToBoolean]: a Number is falsy when it is a zero or NaN. *)
Definition ToBoolean (x : number) : bool :=
  match x with
  | S754_zero _ | S754_nan => false
  | _ => true
  end.

Definition is_zero (x : number) : bool :=
  match x with
  | S754_zero _ => true
  | _ => false
  end.

Definition is_nan (x : number) : bool :=
  match x with
  | S754_nan => true
  | _ => false
  end.

(** A finite, strictly positive double. *)
Definition is_finite_pos (x : number) : bool :=
  match x with
  | S754_finite false _ _ => true
  | _ => false
  end.

(** The integer part, rounding towards zero; 0 for NaN and infinities.
    [Z.shiftl] by a negative amount shifts right. *)
Definition truncate (x : number) : Z :=
  match x with
  | S754_finite s m e => cond_Zopp s (Z.shiftl (Z.pos m) e)
  | _ => 0
  end.

(** WebIDL conversion of a Number to [unsigned long]. *)
Definition ToUint32 (x : number) : Z := truncate x mod 2 ^ 32.

(** [Math.fround]: the value a Float32Array element keeps. *)
Definition fround (x : number) : number :=
  match x with
  | S754_finite s m e =>
      match binary_normalize 24 128 (cond_Zopp s (Z.pos m)) e s with
      | S754_finite s' m' e' =>
          binary_normalize prec emax (cond_Zopp s' (Z.pos m')) e' s'
      | y => y
      end
  | _ => x
  end.

(** [Math.PI], the double 0x400921FB54442D18. *)
Definition Math_PI : number := S754_finite false 7074237752028440 (-51).

End JS.

Abbreviation number := JS.number.

(** ** Typed arrays and array buffers *)

(** A byte of an array buffer: a zero byte, or the [k]-th byte of the
    binary32 encoding of a value.  Copies move bytes; the encoding itself
    is never needed. *)
Inductive byte :=
| ZeroByte
| F32Byte (x : number) (k : nat).

(** A [Float32Array] that owns its whole buffer, as every array of the
    program does ([new Float32Array(n)]): its elements in order. *)
Definition Float32Array := list number.

Module TypedArray.

(** [new Float32Array(n)]: [n] elements, all +0. *)
Definition create (n : nat) : Float32Array := repeat (S754_zero false) n.

(** Element-wise stores [a[0] = v0; a[1] = v1; ...]: each value is
    rounded to binary32, and a store past the end is ignored. *)
Fixpoint store (a : Float32Array) (vs : list number) : Float32Array :=
  match a, vs with
  | _ :: a', v :: vs' => JS.fround v :: store a' vs'
  | _, _ => a
  end.

Definition length (a : Float32Array) : Z := Z.of_nat (List.length a).
Definition byteOffset (a : Float32Array) : Z := 0.
Definition byteLength (a : Float32Array) : Z := 4 * length a.

(** [a.buffer]: four bytes per element. *)
Definition buffer (a : Float32Array) : list byte :=
  flat_map (fun x => [F32Byte x 0; F32Byte x 1; F32Byte x 2; F32Byte x 3]) a.

End TypedArray.

(** ** Exceptions and the state monad *)

Inductive Exn :=
| TypeError (what : string)
| RangeError (what : string)
| OperationError (what : string)
| InvalidStateError (what : string)
| Rejected (what : string).

(** A computation over a state [S]: it always leaves a state behind, and
    either returns or throws.  What was done before a throw stays done. *)
Definition M (S A : Type) : Type := S -> S * (Exn + A).

Definition ret {S A} (a : A) : M S A := fun s => (s, inr a).

Definition bind {S A B} (c : M S A) (k : A -> M S B) : M S B :=
  fun s =>
    match c s with
    | (s', inr a) => k a s'
    | (s', inl e) => (s', inl e)
    end.

Definition throw {S A} (e : Exn) : M S A := fun s => (s, inl e).
Definition get {S} : M S S := fun s => (s, inr s).
Definition modify {S} (f : S -> S) : M S unit := fun s => (f s, inr tt).

Notation "'let*' x ':=' c 'in' k" := (bind c (fun x => k))
  (at level 10, x name, c at level 100, k at level 200).
Notation "c '>>>' k" := (bind c (fun _ => k))
  (at level 100, k at level 200, right associativity).

(** ** The world outside the module *)

Definition handle := nat.

Record Canvas := {
  clientWidth : Z;
  clientHeight : Z;
  width : Z;
  height : Z
}.

Record GPUTexture := {
  tex_width : Z;
  tex_height : Z;
  tex_format : string;
  tex_usage : Z;
  tex_destroyed : bool
}.

Record GPUBuffer := {
  buf_size : Z;
  buf_usage : Z;
  buf_mapped : bool;
  buf_bytes : list byte
}.

(** A texture view remembers what it views: a texture of the device, or
    the canvas's current texture at the drawing-buffer size it had. *)
Inductive TextureView :=
| ViewOfTexture (t : handle)
| ViewOfCanvas (w h : Z).

Inductive PassCommand :=
| SetPipeline (pipeline : handle)
| SetBindGroup (index : Z) (group : handle)
| SetVertexBuffer (slot : Z) (buffer : handle)
| Draw (vertexCount : Z).

Record RenderPass := {
  pass_color_view : option TextureView;
  pass_depth_view : TextureView;
  pass_commands : list PassCommand
}.

Record GPUCommandBuffer := {
  cb_label : string;
  cb_passes : list RenderPass
}.

(** The callbacks the module ever registers: only [frame]. *)
Inductive Callback := CbFrame.

Inductive Event :=
| EvConsoleError (msg : string)
| EvCreateShaderModule (h : handle)
| EvConfigure (format : string)
| EvCreateBuffer (h : handle) (size usage : Z) (mappedAtCreation : bool)
| EvMappedWrite (h : handle) (data : list byte)
| EvUnmap (h : handle)
| EvCreateRenderPipeline (h : handle) (arrayStride positionOffset uvOffset : Z)
| EvCreateTexture (h : handle) (w ht : Z)
| EvDestroyTexture (h : handle)
| EvCreateBindGroup (h : handle)
| EvCreateView (v : TextureView)
| EvWriteBuffer (h : handle) (bufferOffset : Z) (data : list byte)
| EvValidationError (what : string)
| EvSubmit (cbs : list GPUCommandBuffer)
| EvRequestAnimationFrame (cb : Callback).

Record World := {
  canvas : Canvas;
  clock : Z;
  configured : bool;
  textures : gmap handle GPUTexture;
  buffers : gmap handle GPUBuffer;
  next_handle : handle;
  animation_callbacks : list Callback;
  trace : list Event
}.

Definition with_canvas (c : Canvas) (w : World) : World :=
  match w with
  | Build_World _ k0 f0 ts0 bs0 n0 cbs0 tr0 =>
      Build_World c k0 f0 ts0 bs0 n0 cbs0 tr0
  end.

Definition with_clock (t : Z) (w : World) : World :=
  match w with
  | Build_World c0 _ f0 ts0 bs0 n0 cbs0 tr0 =>
      Build_World c0 t f0 ts0 bs0 n0 cbs0 tr0
  end.

Definition with_configured (b : bool) (w : World) : World :=
  match w with
  | Build_World c0 k0 _ ts0 bs0 n0 cbs0 tr0 =>
      Build_World c0 k0 b ts0 bs0 n0 cbs0 tr0
  end.

Definition with_textures (ts : gmap handle GPUTexture) (w : World) : World :=
  match w with
  | Build_World c0 k0 f0 _ bs0 n0 cbs0 tr0 =>
      Build_World c0 k0 f0 ts bs0 n0 cbs0 tr0
  end.

Definition with_buffers (bs : gmap handle GPUBuffer) (w : World) : World :=
  match w with
  | Build_World c0 k0 f0 ts0 _ n0 cbs0 tr0 =>
      Build_World c0 k0 f0 ts0 bs n0 cbs0 tr0
  end.

Definition with_next_handle (n : handle) (w : World) : World :=
  match w with
  | Build_World c0 k0 f0 ts0 bs0 _ cbs0 tr0 =>
      Build_World c0 k0 f0 ts0 bs0 n cbs0 tr0
  end.

Definition with_animation_callbacks (cbs : list Callback) (w : World) : World :=
  match w with
  | Build_World c0 k0 f0 ts0 bs0 n0 _ tr0 =>
      Build_World c0 k0 f0 ts0 bs0 n0 cbs tr0
  end.

Definition with_trace (t : list Event) (w : World) : World :=
  match w with
  | Build_World c0 k0 f0 ts0 bs0 n0 cbs0 _ =>
      Build_World c0 k0 f0 ts0 bs0 n0 cbs0 t
  end.

(** ** Host calls *)

Module Host.

Definition emit (e : Event) : M World unit :=
  modify (fun w => with_trace (trace w ++ [e]) w).

(** A new device object gets the next unused handle. *)
Definition fresh : M World handle :=
  fun w => (with_next_handle (S (next_handle w)) w, inr (next_handle w)).

(** [console.error(msg)]. *)
Definition console_error (msg : string) : M World unit :=
  emit (EvConsoleError msg).

(** The setter of a reflected [unsigned long] attribute with a default:
    the Number is converted with [ToUint32]; a value above 2^31 - 1 is
    replaced by the default. *)
Definition reflect_unsigned_long (default : Z) (x : number) : Z :=
  let n := JS.ToUint32 x in
  if n <=? 2147483647 then n else default.

(** [canvas.width = x] and [canvas.height = x]. *)
Definition set_canvas_width (x : number) : M World unit :=
  modify (fun w =>
    let c := canvas w in
    with_canvas {| clientWidth := clientWidth c; clientHeight := clientHeight c;
                   width := reflect_unsigned_long 300 x; height := height c |} w).

Definition set_canvas_height (x : number) : M World unit :=
  modify (fun w =>
    let c := canvas w in
    with_canvas {| clientWidth := clientWidth c; clientHeight := clientHeight c;
                   width := width c; height := reflect_unsigned_long 150 x |} w).

(** [Date.now()]. *)
Definition Date_now : M World Z := fun w => (w, inr (clock w)).

(** [device.createShaderModule], [device.createRenderPipeline] and
    [device.createBindGroup] return a new object. *)
Definition createShaderModule (code : string) : M World handle :=
  let* h := fresh in
  emit (EvCreateShaderModule h) >>>
  ret h.

Definition createRenderPipeline (arrayStride positionOffset uvOffset : Z)
    : M World handle :=
  let* h := fresh in
  emit (EvCreateRenderPipeline h arrayStride positionOffset uvOffset) >>>
  ret h.

Definition createBindGroup : M World handle :=
  let* h := fresh in
  emit (EvCreateBindGroup h) >>>
  ret h.

(** [context.configure(...)]. *)
Definition configure (format : string) : M World unit :=
  modify (with_configured true) >>>
  emit (EvConfigure format).

(** [device.createBuffer({size, usage, mappedAtCreation})]: zero-filled.
    A mapped-at-creation size that is not a multiple of 4 is a
    RangeError. *)
Definition createBuffer (size usage : Z) (mappedAtCreation : bool) : M World handle :=
  if mappedAtCreation && negb (size mod 4 =? 0) then
    throw (RangeError "createBuffer: size")
  else
    let* h := fresh in
    modify (fun w =>
      with_buffers (<[h := {| buf_size := size; buf_usage := usage;
                              buf_mapped := mappedAtCreation;
                              buf_bytes := repeat ZeroByte (Z.to_nat size) |}]>
                      (buffers w)) w) >>>
    emit (EvCreateBuffer h size usage mappedAtCreation) >>>
    ret h.

(** [new Float32Array(b.getMappedRange()).set(src)]: [getMappedRange]
    throws on a buffer that is not mapped, [set] on a source longer than
    the range; otherwise the source's bytes land at the start of the
    buffer. *)
Definition mapped_set (h : handle) (src : Float32Array) : M World unit :=
  let* w := get in
  match buffers w !! h with
  | Some b =>
      if negb (buf_mapped b) then
        throw (OperationError "getMappedRange: not mapped")
      else if buf_size b <? TypedArray.byteLength src then
        throw (RangeError "set: source is too large")
      else
        let data := TypedArray.buffer src in
        modify (with_buffers
          (<[h := {| buf_size := buf_size b; buf_usage := buf_usage b;
                     buf_mapped := true;
                     buf_bytes := data ++ skipn (List.length data) (buf_bytes b) |}]>
             (buffers w))) >>>
        emit (EvMappedWrite h data)
  | None => throw (TypeError "not a buffer")
  end.

(** [b.unmap()]. *)
Definition unmap (h : handle) : M World unit :=
  modify (fun w =>
    with_buffers (alter (fun b =>
      {| buf_size := buf_size b; buf_usage := buf_usage b;
         buf_mapped := false; buf_bytes := buf_bytes b |}) h (buffers w)) w) >>>
  emit (EvUnmap h).

(** [device.createTexture({size: [w, ht], format, usage})]. *)
Definition createTexture (w ht : Z) (format : string) (usage : Z) : M World handle :=
  let* h := fresh in
  modify (fun s =>
    with_textures (<[h := {| tex_width := w; tex_height := ht;
                             tex_format := format; tex_usage := usage;
                             tex_destroyed := false |}]> (textures s)) s) >>>
  emit (EvCreateTexture h w ht) >>>
  ret h.

(** [t.destroy()]. *)
Definition destroy (h : handle) : M World unit :=
  modify (fun w =>
    with_textures (alter (fun t =>
      {| tex_width := tex_width t; tex_height := tex_height t;
         tex_format := tex_format t; tex_usage := tex_usage t;
         tex_destroyed := true |}) h (textures w)) w) >>>
  emit (EvDestroyTexture h).

(** [t.createView()]. *)
Definition createView (h : handle) : M World TextureView :=
  emit (EvCreateView (ViewOfTexture h)) >>>
  ret (ViewOfTexture h).

(** [context.getCurrentTexture().createView()]: an InvalidStateError
    when the context was never configured. *)
Definition currentTexture_createView : M World TextureView :=
  let* w := get in
  if configured w then
    let v := ViewOfCanvas (width (canvas w)) (height (canvas w)) in
    emit (EvCreateView v) >>>
    ret v
  else throw (InvalidStateError "getCurrentTexture: not configured").

(** [device.queue.writeBuffer(b, bufferOffset, data, dataOffset, size)]
    with an ArrayBuffer as data, so offsets and size count bytes.  A
    range outside the data, or a size that is not a multiple of 4, throws
    an OperationError.  A write that does not fit the buffer (or a
    misaligned offset, a mapped buffer, a missing COPY_DST usage) is a
    validation error: nothing is written and nothing is thrown. *)
Definition writeBuffer (h : handle) (bufferOffset : Z) (data : list byte)
    (dataOffset size : Z) : M World unit :=
  if negb ((0 <=? size) && (0 <=? dataOffset)
           && (dataOffset + size <=? Z.of_nat (List.length data))
           && (size mod 4 =? 0)) then
    throw (OperationError "writeBuffer: data range")
  else
    let* w := get in
    match buffers w !! h with
    | Some b =>
        if negb (buf_mapped b) && Z.testbit (buf_usage b) 3
           && (0 <=? bufferOffset) && (bufferOffset mod 4 =? 0)
           && (bufferOffset + size <=? buf_size b) then
          let contents := firstn (Z.to_nat size) (skipn (Z.to_nat dataOffset) data) in
          modify (with_buffers
            (<[h := {| buf_size := buf_size b; buf_usage := buf_usage b;
                       buf_mapped := buf_mapped b;
                       buf_bytes :=
                         firstn (Z.to_nat bufferOffset) (buf_bytes b)
                         ++ contents
                         ++ skipn (Z.to_nat (bufferOffset + size)) (buf_bytes b) |}]>
               (buffers w))) >>>
          emit (EvWriteBuffer h bufferOffset contents)
        else emit (EvValidationError "writeBuffer")
    | None => throw (TypeError "not a buffer")
    end.

(** [device.queue.submit(cbs)]. *)
Definition submit (cbs : list GPUCommandBuffer) : M World unit :=
  emit (EvSubmit cbs).

(** [requestAnimationFrame(cb)]: one more entry in the callback list. *)
Definition requestAnimationFrame (cb : Callback) : M World unit :=
  modify (fun w => with_animation_callbacks (animation_callbacks w ++ [cb]) w) >>>
  emit (EvRequestAnimationFrame cb).

End Host.

(** WebGPU's usage flags. *)
Module GPUBufferUsage.
Definition COPY_DST : Z := 8.
Definition VERTEX : Z := 32.
Definition UNIFORM : Z := 64.
End GPUBufferUsage.

Module GPUTextureUsage.
Definition RENDER_ATTACHMENT : Z := 16.
End GPUTextureUsage.

(** ** Reading a trace *)

Module Trace.

(** The submissions, the buffer writes and the animation-frame requests
    of a trace, in order. *)
Definition submissions (evs : list Event) : list (list GPUCommandBuffer) :=
  flat_map (fun e => match e with EvSubmit cbs => [cbs] | _ => [] end) evs.

Definition writes (evs : list Event) : list (handle * Z * list byte) :=
  flat_map (fun e => match e with EvWriteBuffer h o d => [(h, o, d)] | _ => [] end) evs.

Definition requests (evs : list Event) : list Callback :=
  flat_map (fun e => match e with EvRequestAnimationFrame cb => [cb] | _ => [] end) evs.

Definition console_errors (evs : list Event) : list string :=
  flat_map (fun e => match e with EvConsoleError msg => [msg] | _ => [] end) evs.

(** The vertex counts of the draw calls of a command buffer. *)
Definition draws (cb : GPUCommandBuffer) : list Z :=
  flat_map (fun p =>
              flat_map (fun c => match c with Draw n => [n] | _ => [] end)
                       (pass_commands p))
           (cb_passes cb).

(** A texture is created or destroyed. *)
Definition texture_lifecycle (e : Event) : bool :=
  match e with
  | EvCreateTexture _ _ _ | EvDestroyTexture _ => true
  | _ => false
  end.

(** A buffer, a pipeline, a bind group or a shader module is created. *)
Definition creation (e : Event) : bool :=
  match e with
  | EvCreateBuffer _ _ _ _ | EvCreateRenderPipeline _ _ _ _
  | EvCreateBindGroup _ | EvCreateShaderModule _ => true
  | _ => false
  end.

(** Buffer [h] is created. *)
Definition creates_buffer (h : handle) (e : Event) : bool :=
  match e with
  | EvCreateBuffer h' _ _ _ => Nat.eqb h h'
  | _ => false
  end.

(** The contents or the mapping of buffer [h] are touched. *)
Definition touches_buffer (h : handle) (e : Event) : bool :=
  match e with
  | EvWriteBuffer h' _ _ | EvMappedWrite h' _ | EvUnmap h' => Nat.eqb h h'
  | _ => false
  end.

Definition validation_error (e : Event) : bool :=
  match e with
  | EvValidationError _ => true
  | _ => false
  end.

End Trace.

(** ** What the module imports *)

(** [/src/cube.js]: the vertex data and its layout constants. *)
Record CubeModule := {
  cubeVertexArray : Float32Array;
  cubeVertexSize : Z;
  cubeUVOffset : Z;
  cubePositionOffset : Z;
  cubeVertexCount : Z
}.

(** The arithmetic of [wgpu-matrix] and of [Math]: each matrix function
    gives the sixteen entries it computes; where they are stored (a new
    array or the [dst] argument) is part of the program below. *)
Record MatrixLibrary := {
  mat4_perspective : number -> number -> number -> number -> list number;
  mat4_identity : list number;
  mat4_translate : Float32Array -> Float32Array -> list number;
  mat4_rotate : Float32Array -> Float32Array -> number -> list number;
  mat4_multiply : Float32Array -> Float32Array -> list number;
  Math_sin : number -> number;
  Math_cos : number -> number
}.

(** What the host answers during set-up.  [shader_file] is the outcome of
    [loadFile("./shaders/cube.wgsl")] of [/src/load.js]: the text, or a
    rejection. *)
Record Env := {
  navigator_gpu : bool;
  adapter_found : bool;
  device_granted : bool;
  shader_file : option string;
  canvas_element : bool;
  webgpu_context : bool;
  window_devicePixelRatio : number;
  preferredCanvasFormat : string
}.

(** ** The module-level bindings *)

Record RenderPassDescriptor := {
  color_view : option TextureView;
  depth_view : TextureView
}.

Record Globals := {
  devicePixelRatio : number;
  presentationFormat : string;
  verticesBuffer : handle;
  renderPipeline : handle;
  depthTexture : option handle;
  uniformBuffer : handle;
  uniformBindGroup : handle;
  renderPassDescriptor : RenderPassDescriptor;
  aspect : number;
  projectionMatrix : Float32Array;
  modelViewProjectionMatrix : Float32Array
}.

Definition with_depthTexture (t : option handle) (g : Globals) : Globals :=
  match g with
  | Build_Globals dpr pf vb rp _ ub bg rpd asp pm mvp =>
      Build_Globals dpr pf vb rp t ub bg rpd asp pm mvp
  end.

Definition with_renderPassDescriptor (d : RenderPassDescriptor) (g : Globals) : Globals :=
  match g with
  | Build_Globals dpr pf vb rp dt ub bg _ asp pm mvp =>
      Build_Globals dpr pf vb rp dt ub bg d asp pm mvp
  end.

Definition with_aspect (a : number) (g : Globals) : Globals :=
  match g with
  | Build_Globals dpr pf vb rp dt ub bg rpd _ pm mvp =>
      Build_Globals dpr pf vb rp dt ub bg rpd a pm mvp
  end.

Definition with_modelViewProjectionMatrix (m : Float32Array) (g : Globals) : Globals :=
  match g with
  | Build_Globals dpr pf vb rp dt ub bg rpd asp pm _ =>
      Build_Globals dpr pf vb rp dt ub bg rpd asp pm m
  end.

(** The running program: its bindings and the world. *)
Record Prog := {
  globals : Globals;
  world : World
}.

Definition liftW {A} (c : M World A) : M Prog A :=
  fun p =>
    let (w', r) := c (world p) in
    ({| globals := globals p; world := w' |}, r).

Definition update_globals (f : Globals -> Globals) : M Prog unit :=
  modify (fun p => {| globals := f (globals p); world := world p |}).

(** A binding that holds an object is truthy, [undefined] is falsy. *)
Definition defined {A} (o : option A) : bool :=
  match o with
  | Some _ => true
  | None => false
  end.

Definition depthFormat : string := "depth24plus".

Definition uniformBufferSize : Z := 4 * 16.

(** ** The program *)

Section Program.

Context (cube : CubeModule) (lib : MatrixLibrary).

(** [vec3.fromValues(x, y, z)] and [mat4.create()]: new arrays. *)
Definition vec3_fromValues (x y z : number) : Float32Array :=
  TypedArray.store (TypedArray.create 3) [x; y; z].

Definition mat4_create : Float32Array := TypedArray.create 16.

(** Lines 5 to 99 and line 149: the set-up, one statement after the other.
    The awaited promises either resolve or reject; a rejection, like any
    exception, ends the module. *)
Definition main (env : Env) : M World Globals :=
  (if negb (navigator_gpu env) then
     Host.console_error "WebGPU is not supported in this browser."
   else ret tt) >>>
  let* adapter :=
    (if navigator_gpu env then ret (adapter_found env)
     else throw (TypeError "navigator.gpu is undefined")) in
  (if (adapter : bool) then
     if device_granted env then ret tt
     else throw (Rejected "requestDevice")
   else throw (TypeError "adapter is null")) >>>
  let* cubeShaderFile :=
    (match shader_file env with
     | Some code => ret code
     | None => throw (Rejected "loadFile")
     end) in
  let* cubeShaderModule := Host.createShaderModule cubeShaderFile in
  let* context :=
    (if canvas_element env then ret (webgpu_context env)
     else throw (TypeError "canvas is null")) in
  let devicePixelRatio := window_devicePixelRatio env in
  let* w := get in
  Host.set_canvas_width
    (JS.mul (JS.of_Z (clientWidth (canvas w))) devicePixelRatio) >>>
  let* w := get in
  Host.set_canvas_height
    (JS.mul (JS.of_Z (clientHeight (canvas w))) devicePixelRatio) >>>
  let presentationFormat := preferredCanvasFormat env in
  (if (context : bool) then Host.configure presentationFormat
   else throw (TypeError "context is null")) >>>
  let* verticesBuffer :=
    Host.createBuffer (TypedArray.byteLength (cubeVertexArray cube))
      GPUBufferUsage.VERTEX true in
  Host.mapped_set verticesBuffer (cubeVertexArray cube) >>>
  Host.unmap verticesBuffer >>>
  let* renderPipeline :=
    Host.createRenderPipeline (cubeVertexSize cube) (cubePositionOffset cube)
      (cubeUVOffset cube) in
  let* w := get in
  let* depthTexture :=
    Host.createTexture (width (canvas w)) (height (canvas w)) depthFormat
      GPUTextureUsage.RENDER_ATTACHMENT in
  let* uniformBuffer :=
    Host.createBuffer uniformBufferSize
      (Z.lor GPUBufferUsage.UNIFORM GPUBufferUsage.COPY_DST) false in
  let* uniformBindGroup := Host.createBindGroup in
  let* depthView := Host.createView depthTexture in
  let renderPassDescriptor := {| color_view := None; depth_view := depthView |} in
  let* w := get in
  let aspect := JS.div (JS.of_Z (width (canvas w))) (JS.of_Z (height (canvas w))) in
  let projectionMatrix :=
    TypedArray.store (TypedArray.create 16)
      (mat4_perspective lib
         (JS.div (JS.mul (JS.of_Z 2) JS.Math_PI) (JS.of_Z 5))
         aspect (JS.of_Z 1) (JS.of_Z 100)) in
  let modelViewProjectionMatrix := mat4_create in
  Host.requestAnimationFrame CbFrame >>>
  ret {| devicePixelRatio := devicePixelRatio;
         presentationFormat := presentationFormat;
         verticesBuffer := verticesBuffer;
         renderPipeline := renderPipeline;
         depthTexture := Some depthTexture;
         uniformBuffer := uniformBuffer;
         uniformBindGroup := uniformBindGroup;
         renderPassDescriptor := renderPassDescriptor;
         aspect := aspect;
         projectionMatrix := projectionMatrix;
         modelViewProjectionMatrix := modelViewProjectionMatrix |}.

(** Lines 101 to 109.  [viewMatrix] is a new array that [translate] and
    [rotate] overwrite in place; [multiply] overwrites the module's
    [modelViewProjectionMatrix], which is also what is returned. *)
Definition getTransformationMatrix : M Prog Float32Array :=
  let viewMatrix := TypedArray.store (TypedArray.create 16) (mat4_identity lib) in
  let viewMatrix :=
    TypedArray.store viewMatrix
      (mat4_translate lib viewMatrix
         (vec3_fromValues (JS.of_Z 0) (JS.of_Z 0) (JS.of_Z (-4)))) in
  let* ms := liftW Host.Date_now in
  let now := JS.div (JS.of_Z ms) (JS.of_Z 1000) in
  let viewMatrix :=
    TypedArray.store viewMatrix
      (mat4_rotate lib viewMatrix
         (vec3_fromValues (Math_sin lib now) (Math_cos lib now) (JS.of_Z 0))
         (JS.of_Z 1)) in
  let* p := get in
  let g := globals p in
  update_globals (with_modelViewProjectionMatrix
    (TypedArray.store (modelViewProjectionMatrix g)
       (mat4_multiply lib (projectionMatrix g) viewMatrix))) >>>
  let* p := get in
  ret (modelViewProjectionMatrix (globals p)).

(** The test of line 115. *)
Definition resize_needed (currentWidth currentHeight : number) (p : Prog) : bool :=
  let c := canvas (world p) in
  (negb (JS.strict_eq currentWidth (JS.of_Z (width c)))
   || negb (JS.strict_eq currentHeight (JS.of_Z (height c)))
   || negb (defined (depthTexture (globals p))))
  && JS.ToBoolean currentWidth && JS.ToBoolean currentHeight.

(** Lines 111 to 148. *)
Definition frame : M Prog unit :=
  let* p := get in
  let currentWidth :=
    JS.mul (JS.of_Z (clientWidth (canvas (world p)))) (devicePixelRatio (globals p)) in
  let currentHeight :=
    JS.mul (JS.of_Z (clientHeight (canvas (world p)))) (devicePixelRatio (globals p)) in
  (if resize_needed currentWidth currentHeight p then
     (match depthTexture (globals p) with
      | Some t => liftW (Host.destroy t)
      | None => ret tt
      end) >>>
     liftW (Host.set_canvas_width currentWidth) >>>
     liftW (Host.set_canvas_height currentHeight) >>>
     let* p := get in
     let c := canvas (world p) in
     update_globals (with_aspect (JS.div (JS.of_Z (width c)) (JS.of_Z (height c)))) >>>
     let* t := liftW (Host.createTexture (width c) (height c) depthFormat
                        GPUTextureUsage.RENDER_ATTACHMENT) in
     update_globals (with_depthTexture (Some t))
   else ret tt) >>>
  let* p := get in
  let* depthView :=
    (match depthTexture (globals p) with
     | Some t => liftW (Host.createView t)
     | None => throw (TypeError "depthTexture is undefined")
     end) in
  update_globals (fun g =>
    with_renderPassDescriptor
      {| color_view := color_view (renderPassDescriptor g);
         depth_view := depthView |} g) >>>
  let* transformationMatrix := getTransformationMatrix in
  let* p := get in
  liftW (Host.writeBuffer (uniformBuffer (globals p)) 0
           (TypedArray.buffer transformationMatrix)
           (TypedArray.byteOffset transformationMatrix)
           (TypedArray.byteLength transformationMatrix)) >>>
  let* colorView := liftW Host.currentTexture_createView in
  update_globals (fun g =>
    with_renderPassDescriptor
      {| color_view := Some colorView;
         depth_view := depth_view (renderPassDescriptor g) |} g) >>>
  let* p := get in
  let g := globals p in
  let passEncoder :=
    {| pass_color_view := color_view (renderPassDescriptor g);
       pass_depth_view := depth_view (renderPassDescriptor g);
       pass_commands :=
         [ SetPipeline (renderPipeline g);
           SetBindGroup 0 (uniformBindGroup g);
           SetVertexBuffer 0 (verticesBuffer g);
           Draw (cubeVertexCount cube) ] |} in
  let commandEncoder := {| cb_label := "frame"; cb_passes := [passEncoder] |} in
  liftW (Host.submit [commandEncoder]) >>>
  liftW (Host.requestAnimationFrame CbFrame).

(** ** The host's loop *)

(** Before set-up: a canvas laid out at some client size, the clock at
    some time, no device object, nothing registered.  The canvas element
    starts at its default size of 300 by 150. *)
Definition initial_world (cw ch t : Z) : World :=
  {| canvas := {| clientWidth := cw; clientHeight := ch; width := 300; height := 150 |};
     clock := t;
     configured := false;
     textures := ∅;
     buffers := ∅;
     next_handle := 0%nat;
     animation_callbacks := [];
     trace := [] |}.

(** Between two callbacks the host may lay the canvas out anew and let
    time pass; it never touches [canvas.width] or [canvas.height]. *)
Definition host_update (cw ch t : Z) (p : Prog) : Prog :=
  let w := world p in
  let c := canvas w in
  {| globals := globals p;
     world := with_clock t (with_canvas
       {| clientWidth := cw; clientHeight := ch;
          width := width c; height := height c |} w) |}.

(** The host takes a callback off the list before it invokes it. *)
Definition dequeue (rest : list Callback) (p : Prog) : Prog :=
  {| globals := globals p; world := with_animation_callbacks rest (world p) |}.

(** A device pixel ratio is a finite positive double; a client size is a
    non-negative [long]. *)
Definition dpr_ok (x : number) : Prop :=
  JS.is_finite_pos x = true ∧ valid_binary JS.prec JS.emax x = true.

Definition client_ok (n : Z) : Prop := 0 <= n < 2 ^ 31.

(** Set-up ran to its end on some host and left [p]. *)
Definition started (p : Prog) : Prop :=
  exists env cw ch t,
    dpr_ok (window_devicePixelRatio env) /\ client_ok cw /\ client_ok ch /\
    main env (initial_world cw ch t) = (world p, inr (globals p)).

(** One host task after set-up: a new layout, or a pending callback taken
    off the list and invoked.  An exception in a callback is reported by
    the host and the state it left behind stays. *)
Inductive step : Prog -> Prog -> Prop :=
| step_host p cw ch t :
    client_ok cw -> client_ok ch ->
    step p (host_update cw ch t p)
| step_frame p rest :
    animation_callbacks (world p) = CbFrame :: rest ->
    step p (fst (frame (dequeue rest p))).

(** The states the program is in between two host tasks. *)
Definition reachable (p : Prog) : Prop :=
  exists p0, started p0 /\ rtc step p0 p.

(** The states in which the host invokes [frame]. *)
Definition invocation (q : Prog) : Prop :=
  exists p rest,
    reachable p /\ animation_callbacks (world p) = CbFrame :: rest /\
    q = dequeue rest p.

(** Set-up in closed form, for a host on which nothing fails: the state
    it leaves behind ([main_eq] below proves that it is).  The handles are
    given out in creation order: shader module 0, vertex buffer 1,
    pipeline 2, depth texture 3, uniform buffer 4, bind group 5. *)
Definition main_post (env : Env) (cw ch t : Z) : Prog :=
  let dpr := window_devicePixelRatio env in
  let wd := Host.reflect_unsigned_long 300 (JS.mul (JS.of_Z cw) dpr) in
  let ht := Host.reflect_unsigned_long 150 (JS.mul (JS.of_Z ch) dpr) in
  let size := TypedArray.byteLength (cubeVertexArray cube) in
  let data := TypedArray.buffer (cubeVertexArray cube) in
  let usage := Z.lor GPUBufferUsage.UNIFORM GPUBufferUsage.COPY_DST in
  {| globals :=
       {| devicePixelRatio := dpr;
          presentationFormat := preferredCanvasFormat env;
          verticesBuffer := 1%nat;
          renderPipeline := 2%nat;
          depthTexture := Some 3%nat;
          uniformBuffer := 4%nat;
          uniformBindGroup := 5%nat;
          renderPassDescriptor :=
            {| color_view := None; depth_view := ViewOfTexture 3%nat |};
          aspect := JS.div (JS.of_Z wd) (JS.of_Z ht);
          projectionMatrix :=
            TypedArray.store (TypedArray.create 16)
              (mat4_perspective lib
                 (JS.div (JS.mul (JS.of_Z 2) JS.Math_PI) (JS.of_Z 5))
                 (JS.div (JS.of_Z wd) (JS.of_Z ht)) (JS.of_Z 1) (JS.of_Z 100));
          modelViewProjectionMatrix := mat4_create |};
     world :=
       {| canvas := {| clientWidth := cw; clientHeight := ch;
                       width := wd; height := ht |};
          clock := t;
          configured := true;
          textures :=
            <[3%nat := {| tex_width := wd; tex_height := ht;
                          tex_format := depthFormat;
                          tex_usage := GPUTextureUsage.RENDER_ATTACHMENT;
                          tex_destroyed := false |}]> ∅;
          buffers :=
            <[4%nat := {| buf_size := uniformBufferSize; buf_usage := usage;
                          buf_mapped := false;
                          buf_bytes := repeat ZeroByte (Z.to_nat uniformBufferSize) |}]>
              (<[1%nat := {| buf_size := size; buf_usage := GPUBufferUsage.VERTEX;
                             buf_mapped := false; buf_bytes := data |}]> ∅);
          next_handle := 6%nat;
          animation_callbacks := [CbFrame];
          trace :=
            [ EvCreateShaderModule 0%nat;
              EvConfigure (preferredCanvasFormat env);
              EvCreateBuffer 1%nat size GPUBufferUsage.VERTEX true;
              EvMappedWrite 1%nat data;
              EvUnmap 1%nat;
              EvCreateRenderPipeline 2%nat (cubeVertexSize cube)
                (cubePositionOffset cube) (cubeUVOffset cube);
              EvCreateTexture 3%nat wd ht;
              EvCreateBuffer 4%nat uniformBufferSize usage false;
              EvCreateBindGroup 5%nat;
              EvCreateView (ViewOfTexture 3%nat);
              EvRequestAnimationFrame CbFrame ] |} |}.

(** The host has everything set-up asks for. *)
Definition capable (env : Env) : bool :=
  navigator_gpu env && adapter_found env && device_granted env
  && defined (shader_file env) && canvas_element env && webgpu_context env.

(** The scaled client size that [frame] computes on entry. *)
Definition currentWidth (p : Prog) : number :=
  JS.mul (JS.of_Z (clientWidth (canvas (world p)))) (devicePixelRatio (globals p)).

Definition currentHeight (p : Prog) : number :=
  JS.mul (JS.of_Z (clientHeight (canvas (world p)))) (devicePixelRatio (globals p)).

(** The view matrix of [getTransformationMatrix] at clock time [ms]. *)
Definition viewMatrix_at (ms : Z) : Float32Array :=
  let viewMatrix := TypedArray.store (TypedArray.create 16) (mat4_identity lib) in
  let viewMatrix :=
    TypedArray.store viewMatrix
      (mat4_translate lib viewMatrix
         (vec3_fromValues (JS.of_Z 0) (JS.of_Z 0) (JS.of_Z (-4)))) in
  let now := JS.div (JS.of_Z ms) (JS.of_Z 1000) in
  TypedArray.store viewMatrix
    (mat4_rotate lib viewMatrix
       (vec3_fromValues (Math_sin lib now) (Math_cos lib now) (JS.of_Z 0))
       (JS.of_Z 1)).

(** The matrix a frame invoked in [p] writes. *)
Definition transformationMatrix_of (p : Prog) : Float32Array :=
  TypedArray.store (modelViewProjectionMatrix (globals p))
    (mat4_multiply lib (projectionMatrix (globals p))
       (viewMatrix_at (clock (world p)))).

(** The command buffer a frame submits when its pass is described by
    [d]. *)
Definition frame_commands (g : Globals) (d : RenderPassDescriptor) : GPUCommandBuffer :=
  {| cb_label := "frame";
     cb_passes :=
       [ {| pass_color_view := color_view d;
            pass_depth_view := depth_view d;
            pass_commands :=
              [ SetPipeline (renderPipeline g);
                SetBindGroup 0 (uniformBindGroup g);
                SetVertexBuffer 0 (verticesBuffer g);
                Draw (cubeVertexCount cube) ] |} ] |}.

(** The canvas after the test of line 115 and its branch. *)
Definition resized_canvas (p : Prog) : Canvas :=
  let c := canvas (world p) in
  if resize_needed (currentWidth p) (currentHeight p) p then
    {| clientWidth := clientWidth c; clientHeight := clientHeight c;
       width := Host.reflect_unsigned_long 300 (currentWidth p);
       height := Host.reflect_unsigned_long 150 (currentHeight p) |}
  else c.

(** The depth texture after the branch, when it was [t] before: a new
    object, or still [t]. *)
Definition resized_depthTexture (p : Prog) (t : handle) : handle :=
  if resize_needed (currentWidth p) (currentHeight p) p then next_handle (world p)
  else t.

(** What the branch adds to the trace. *)
Definition resize_trace (p : Prog) (t : handle) : list Event :=
  if resize_needed (currentWidth p) (currentHeight p) p then
    [ EvDestroyTexture t;
      EvCreateTexture (next_handle (world p))
        (width (resized_canvas p)) (height (resized_canvas p)) ]
  else [].

(** The pass descriptor at line 140. *)
Definition frame_descriptor (p : Prog) (t : handle) : RenderPassDescriptor :=
  {| color_view :=
       Some (ViewOfCanvas (width (resized_canvas p)) (height (resized_canvas p)));
     depth_view := ViewOfTexture (resized_depthTexture p t) |}.

(** What lines 126 to 147 add to the trace. *)
Definition render_trace (p : Prog) (t : handle) : list Event :=
  [ EvCreateView (ViewOfTexture (resized_depthTexture p t));
    EvWriteBuffer (uniformBuffer (globals p)) 0
      (TypedArray.buffer (transformationMatrix_of p));
    EvCreateView (ViewOfCanvas (width (resized_canvas p)) (height (resized_canvas p)));
    EvSubmit [frame_commands (globals p) (frame_descriptor p t)];
    EvRequestAnimationFrame CbFrame ].

(** [frame] in closed form, for a state whose depth texture is [t] and
    whose uniform buffer is [ub]: the state a frame leaves behind
    ([frame_eq] below proves that it is). *)
Definition frame_post (p : Prog) (t : handle) (ub : GPUBuffer) : Prog :=
  let g := globals p in
  let w := world p in
  let need := resize_needed (currentWidth p) (currentHeight p) p in
  let c' := resized_canvas p in
  {| globals :=
       {| devicePixelRatio := devicePixelRatio g;
          presentationFormat := presentationFormat g;
          verticesBuffer := verticesBuffer g;
          renderPipeline := renderPipeline g;
          depthTexture := Some (resized_depthTexture p t);
          uniformBuffer := uniformBuffer g;
          uniformBindGroup := uniformBindGroup g;
          renderPassDescriptor := frame_descriptor p t;
          aspect :=
            if need then JS.div (JS.of_Z (width c')) (JS.of_Z (height c'))
            else aspect g;
          projectionMatrix := projectionMatrix g;
          modelViewProjectionMatrix := transformationMatrix_of p |};
     world :=
       {| canvas := c';
          clock := clock w;
          configured := configured w;
          textures :=
            if need then
              <[next_handle w :=
                  {| tex_width := width c'; tex_height := height c';
                     tex_format := depthFormat;
                     tex_usage := GPUTextureUsage.RENDER_ATTACHMENT;
                     tex_destroyed := false |}]>
                (alter (fun x =>
                          {| tex_width := tex_width x; tex_height := tex_height x;
                             tex_format := tex_format x; tex_usage := tex_usage x;
                             tex_destroyed := true |}) t (textures w))
            else textures w;
          buffers :=
            <[uniformBuffer g :=
                {| buf_size := buf_size ub; buf_usage := buf_usage ub;
                   buf_mapped := buf_mapped ub;
                   buf_bytes := TypedArray.buffer (transformationMatrix_of p) |}]>
              (buffers w);
          next_handle := if need then S (next_handle w) else next_handle w;
          animation_callbacks := animation_callbacks w ++ [CbFrame];
          trace := trace w ++ resize_trace p t ++ render_trace p t |} |}.

(** What a frame invoked in [q] adds to the trace. *)
Definition frame_events (q : Prog) : list Event :=
  skipn (List.length (trace (world q))) (trace (world (fst (frame q)))).

(** The test of line 115 as the specification words it: a scaled client
    dimension differs from the canvas's, and neither is zero. *)
Definition size_differs (p : Prog) : bool :=
  let c := canvas (world p) in
  (negb (JS.strict_eq (currentWidth p) (JS.of_Z (width c)))
   || negb (JS.strict_eq (currentHeight p) (JS.of_Z (height c))))
  && negb (JS.is_zero (currentWidth p)) && negb (JS.is_zero (currentHeight p)).

(** What holds of the program between and during frames. *)
Record consistent (p : Prog) : Prop := {
  depth_matches :
    exists t tex,
      depthTexture (globals p) = Some t /\
      textures (world p) !! t = Some tex /\
      tex_width tex = width (canvas (world p)) /\
      tex_height tex = height (canvas (world p)) /\
      tex_destroyed tex = false;
  uniform_allocated :
    exists ub,
      buffers (world p) !! uniformBuffer (globals p) = Some ub /\
      buf_size ub = uniformBufferSize /\
      buf_mapped ub = false /\
      buf_usage ub = Z.lor GPUBufferUsage.UNIFORM GPUBufferUsage.COPY_DST /\
      List.length (buf_bytes ub) = 64%nat;
  vertices_uploaded :
    buffers (world p) !! verticesBuffer (globals p)
    = Some {| buf_size := TypedArray.byteLength (cubeVertexArray cube);
              buf_usage := GPUBufferUsage.VERTEX;
              buf_mapped := false;
              buf_bytes := TypedArray.buffer (cubeVertexArray cube) |};
  buffers_distinct : verticesBuffer (globals p) <> uniformBuffer (globals p);
  matrix_length : List.length (modelViewProjectionMatrix (globals p)) = 16%nat;
  context_configured : configured (world p) = true;
  handles_fresh :
    forall h : handle,
      (next_handle (world p) <= h)%nat -> textures (world p) !! h = None;
  ratio_finite : JS.is_finite_pos (devicePixelRatio (globals p)) = true
}.

(** The lifecycle the specification gives every resource, as it words it:
    nothing is created or destroyed once set-up is over. *)
Definition create_once_use_forever : Prop :=
  forall q, invocation q ->
    forallb (fun e => negb (Trace.texture_lifecycle e || Trace.creation e))
            (frame_events q) = true.

(** A resizing frame as the specification words it: afterwards the canvas
    size is the scaled client size. *)
Definition canvas_set_to_new_size : Prop :=
  forall q, invocation q ->
    existsb Trace.texture_lifecycle (frame_events q) = true ->
    let c := canvas (world (fst (frame q))) in
    JS.strict_eq (JS.of_Z (width c)) (currentWidth q) = true /\
    JS.strict_eq (JS.of_Z (height c)) (currentHeight q) = true.

End Program.

(** ** A concrete run *)

(** Stand-ins for the imports, to run the program on: a single triangle
    in the layout of [cube.js] (four position floats, four colour floats,
    two UV floats per vertex), and a matrix library whose identity and
    product are the usual ones.  No theorem depends on the choice. *)
Module Sample.

Definition cube : CubeModule :=
  {| cubeVertexArray :=
       map JS.of_Z [ 1; -1; 1; 1;   1; 0; 1; 1;   0; 1;
                     -1; -1; 1; 1;  0; 0; 1; 1;   1; 1;
                     -1; -1; -1; 1; 0; 0; 0; 1;   1; 0 ];
     cubeVertexSize := 4 * 10;
     cubeUVOffset := 4 * 8;
     cubePositionOffset := 0;
     cubeVertexCount := 3 |}.

Definition entry (m : list number) (i : nat) : number :=
  nth i m (S754_zero false).

Definition product (a b : list number) : list number :=
  map (fun n =>
         let i := (n mod 4)%nat in
         let j := (n / 4)%nat in
         fold_left JS.add
           (map (fun k => JS.mul (entry a (i + 4 * k)) (entry b (k + 4 * j)))
                (seq 0 4))
           (S754_zero false))
      (seq 0 16).

Definition identity : list number :=
  map JS.of_Z [1; 0; 0; 0;  0; 1; 0; 0;  0; 0; 1; 0;  0; 0; 0; 1].

Definition translation (v : list number) : list number :=
  map JS.of_Z [1; 0; 0; 0;  0; 1; 0; 0;  0; 0; 1; 0]
  ++ [entry v 0; entry v 1; entry v 2; JS.of_Z 1].

Definition lib : MatrixLibrary :=
  {| mat4_perspective := fun fovy aspect near far =>
       [ JS.div (JS.of_Z 1) aspect; JS.of_Z 0; JS.of_Z 0; JS.of_Z 0;
         JS.of_Z 0; JS.of_Z 1; JS.of_Z 0; JS.of_Z 0;
         JS.of_Z 0; JS.of_Z 0; JS.of_Z (-1); JS.of_Z (-1);
         JS.of_Z 0; JS.of_Z 0; JS.of_Z (-2); JS.of_Z 0 ];
     mat4_identity := identity;
     mat4_translate := fun m v => product m (translation v);
     mat4_rotate := fun m axis angle => m;
     mat4_multiply := product;
     Math_sin := fun x => JS.of_Z 0;
     Math_cos := fun x => JS.of_Z 1 |}.

(** A browser with WebGPU at a device pixel ratio of [dpr]. *)
Definition env (dpr : number) : Env :=
  {| navigator_gpu := true;
     adapter_found := true;
     device_granted := true;
     shader_file := Some "@vertex fn vs() {} @fragment fn fs() {}";
     canvas_element := true;
     webgpu_context := true;
     window_devicePixelRatio := dpr;
     preferredCanvasFormat := "bgra8unorm" |}.

(** The same browser without WebGPU. *)
Definition env_without_gpu : Env :=
  {| navigator_gpu := false;
     adapter_found := false;
     device_granted := false;
     shader_file := Some "@vertex fn vs() {} @fragment fn fs() {}";
     canvas_element := true;
     webgpu_context := false;
     window_devicePixelRatio := JS.of_Z 1;
     preferredCanvasFormat := "bgra8unorm" |}.

(** The program after set-up on a canvas laid out at [cw] by [ch]; the
    bindings are meaningless when set-up threw. *)
Definition no_globals : Globals :=
  {| devicePixelRatio := S754_nan; presentationFormat := "";
     verticesBuffer := 0%nat; renderPipeline := 0%nat; depthTexture := None;
     uniformBuffer := 0%nat; uniformBindGroup := 0%nat;
     renderPassDescriptor := {| color_view := None; depth_view := ViewOfCanvas 0 0 |};
     aspect := S754_nan; projectionMatrix := []; modelViewProjectionMatrix := [] |}.

Definition started (dpr : number) (cw ch : Z) : Prog :=
  match main cube lib (env dpr) (initial_world cw ch 0) with
  | (w, inr g) => {| globals := g; world := w |}
  | (w, inl _) => {| globals := no_globals; world := w |}
  end.

(** The state in which the first frame is invoked. *)
Definition first_invocation (dpr : number) (cw ch : Z) : Prog :=
  dequeue [] (started dpr cw ch).

(** The state in which the first frame is invoked when the host has laid
    the canvas out at [cw'] by [ch'] in between, 16 ms after set-up. *)
Definition after_layout (dpr : number) (cw ch cw' ch' : Z) : Prog :=
  dequeue [] (host_update cw' ch' 16 (started dpr cw ch)).

(** Three runs: a canvas of 300 by 150 at ratio 1 that the host enlarges
    to 400 by 300 before the first frame; the same canvas collapsed to
    nothing; and a canvas of 301 by 200 at ratio 1.5, whose scaled width
    is 451.5. *)
Definition one : number := JS.of_Z 1.
Definition one_and_a_half : number := JS.dyadic 3 (-1).

Definition half : number := JS.dyadic 1 (-1).

Definition enlarged : Prog := after_layout one 300 150 400 300.
Definition collapsed : Prog := after_layout one 300 150 0 0.
Definition fractional : Prog := first_invocation one_and_a_half 301 200.

(** And a canvas one client pixel wide on a page zoomed out to ratio 0.5:
    its scaled width, 0.5, is not zero. *)
Definition sub_pixel : Prog := first_invocation half 1 100.

End Sample.

(** ** Whole runs *)

Section WholeRuns.

Context (cube : CubeModule) (lib : MatrixLibrary).

(** The canvas keeps [x] as it is: read back after [canvas.width = x]
    (or [canvas.height = x], with the other default) the attribute is
    strictly equal to [x]. *)
Definition kept (default : Z) (x : number) : bool :=
  JS.strict_eq x (JS.of_Z (Host.reflect_unsigned_long default x)).

(** The state in which the next frame is invoked when the host does
    nothing in between but let time pass until [t]. *)
Definition next_invocation (t : Z) (p : Prog) : Prog :=
  dequeue []
    (host_update (clientWidth (canvas (world p)))
       (clientHeight (canvas (world p))) t p).

(** What the program keeps tidy between and during frames, besides
    [consistent]. *)
Record tidy (p : Prog) : Prop := {
  canvas_in_range :
    0 <= width (canvas (world p)) <= 2147483647 /\
    0 <= height (canvas (world p)) <= 2147483647;
  one_live_texture :
    forall (h : handle) tex,
      textures (world p) !! h = Some tex -> tex_destroyed tex = false ->
      depthTexture (globals p) = Some h;
  aspect_of_canvas :
    aspect (globals p)
    = JS.div (JS.of_Z (width (canvas (world p))))
        (JS.of_Z (height (canvas (world p))));
  descriptor_of_depthTexture :
    exists t,
      depthTexture (globals p) = Some t /\
      depth_view (renderPassDescriptor (globals p)) = ViewOfTexture t
}.

(** [run_of k p0 p]: the host got from [p0] to [p] invoking [frame] [k]
    times, with any number of layouts in between. *)
Inductive run_of : nat -> Prog -> Prog -> Prop :=
| run_none p : run_of 0 p p
| run_host k p0 p cw ch t :
    run_of k p0 p -> client_ok cw -> client_ok ch ->
    run_of k p0 (host_update cw ch t p)
| run_frame k p0 p rest :
    run_of k p0 p ->
    animation_callbacks (world p) = CbFrame :: rest ->
    run_of (S k) p0 (fst (frame cube lib (dequeue rest p))).

(** A submission of one command buffer with one draw of
    [cubeVertexCount] vertices. *)
Definition one_cube_draw (cbs : list GPUCommandBuffer) : Prop :=
  exists cb, cbs = [cb] /\ Trace.draws cb = [cubeVertexCount cube].

End WholeRuns.

(** More concrete runs: the sample runs one frame further on, a
    canvas that has no layout when set-up runs, a canvas squeezed to one
    client pixel, one as wide as a client size can be, and a browser
    whose canvas lacks a WebGPU context. *)
Module Runs.

(** A canvas of 300 by 150 on a page zoomed out to ratio 0.5 (so 150 by
    75 after set-up) that the host lays out at 1 by 100 before the first
    frame: the scaled size is 0.5 by 50. *)
Definition squeezed : Prog := Sample.after_layout Sample.half 300 150 1 100.

(** A canvas 2^31 - 1 client pixels wide at ratio 1.5: the scaled width,
    3221225470.5, is above what the attribute holds. *)
Definition oversized : Prog :=
  Sample.first_invocation Sample.one_and_a_half 2147483647 200.

Definition fractional_again : Prog :=
  next_invocation 16 (fst (frame Sample.cube Sample.lib Sample.fractional)).

Definition enlarged_again : Prog :=
  next_invocation 32 (fst (frame Sample.cube Sample.lib Sample.enlarged)).


Definition env_without_context : Env :=
  {| navigator_gpu := true;
     adapter_found := true;
     device_granted := true;
     shader_file := Some "@vertex fn vs() {} @fragment fn fs() {}";
     canvas_element := true;
     webgpu_context := false;
     window_devicePixelRatio := Sample.one;
     preferredCanvasFormat := "bgra8unorm" |}.

(** The sample browser lacking the [k]-th thing set-up asks for, in the
    order of the module's statements: [navigator.gpu], the adapter, the
    device, the shader file, the canvas, the WebGPU context. *)
Definition env_lacking (k : nat) : Env :=
  {| navigator_gpu := negb (Nat.eqb k 0);
     adapter_found := negb (Nat.eqb k 1);
     device_granted := negb (Nat.eqb k 2);
     shader_file :=
       if Nat.eqb k 3 then None
       else Some "@vertex fn vs() {} @fragment fn fs() {}";
     canvas_element := negb (Nat.eqb k 4);
     webgpu_context := negb (Nat.eqb k 5);
     window_devicePixelRatio := Sample.one;
     preferredCanvasFormat := "bgra8unorm" |}.

End Runs.

(** * Proofs *)

(** ** Numbers: a scaled client size is never NaN *)

Lemma shr_1_nonneg mrs : 0 <= shr_m mrs -> 0 <= shr_m (shr_1 mrs).
Proof.
  destruct mrs as [m r s]. simpl.
  destruct m as [|[p|p|]|[p|p|]]; simpl; lia.
Qed.

Lemma iter_pos_invariant {A} (P : A -> Prop) (f : A -> A) :
  (forall x, P x -> P (f x)) -> forall n x, P x -> P (iter_pos f n x).
Proof.
  intros Hf. induction n as [n IH|n IH|]; intros x Hx; simpl; auto.
Qed.

Lemma shr_fexp_nonneg prec emax m e l :
  0 <= m -> 0 <= shr_m (fst (shr_fexp prec emax m e l)).
Proof.
  intros Hm. unfold shr_fexp, shr.
  assert (H0 : 0 <= shr_m (shr_record_of_loc m l)).
  { destruct l as [|[| |]]; simpl; exact Hm. }
  destruct (fexp prec emax (Zdigits2 m + e) - e) as [|p|p]; simpl; auto.
  apply iter_pos_invariant with (P := fun x => 0 <= shr_m x); auto using shr_1_nonneg.
Qed.

Lemma round_nearest_even_nonneg m l : 0 <= m -> 0 <= round_nearest_even m l.
Proof.
  intros Hm. unfold round_nearest_even.
  destruct l as [|[| |]]; try lia. destruct (Z.even m); lia.
Qed.

Lemma binary_round_aux_not_nan prec emax s m e l :
  0 <= m -> JS.is_nan (binary_round_aux prec emax s m e l) = false.
Proof.
  intros Hm. unfold binary_round_aux.
  pose proof (shr_fexp_nonneg prec emax m e l Hm) as H1.
  destruct (shr_fexp prec emax m e l) as [mrs' e'] eqn:E1. simpl in H1.
  pose proof (shr_fexp_nonneg prec emax _ e' loc_Exact
                (round_nearest_even_nonneg _ (loc_of_shr_record mrs') H1)) as H2.
  destruct (shr_fexp prec emax _ e' loc_Exact) as [mrs'' e''] eqn:E2. simpl in H2.
  destruct (shr_m mrs'') as [|p|p]; simpl; try reflexivity.
  - destruct (e'' <=? emax - prec); reflexivity.
  - lia.
Qed.

Lemma of_Z_not_nan n : JS.is_nan (JS.of_Z n) = false.
Proof.
  unfold JS.of_Z, JS.dyadic, binary_normalize, binary_round.
  destruct n as [|p|p]; try reflexivity;
    destruct (shl_align _ _ _) as [mz ez]; apply binary_round_aux_not_nan; lia.
Qed.

Lemma scaled_not_nan n y :
  JS.is_finite_pos y = true -> JS.is_nan (JS.mul (JS.of_Z n) y) = false.
Proof.
  intros Hy. pose proof (of_Z_not_nan n) as Hn.
  destruct y as [| | |[|] my ey]; try discriminate.
  destruct (JS.of_Z n) as [sx|sx| |sx mx ex]; try discriminate; try reflexivity.
  unfold JS.mul, SFmul. apply binary_round_aux_not_nan. lia.
Qed.

Lemma ToBoolean_nonzero x :
  JS.is_nan x = false -> JS.ToBoolean x = negb (JS.is_zero x).
Proof. destruct x; simpl; congruence. Qed.

Lemma ToBoolean_zero x : JS.is_zero x = true -> JS.ToBoolean x = false.
Proof. destruct x; simpl; congruence. Qed.

(** ** Numbers: a whole size survives the canvas attribute *)

Lemma digits2_pos_bounds m :
  2 ^ (Z.pos (digits2_pos m) - 1) <= Z.pos m < 2 ^ Z.pos (digits2_pos m).
Proof.
  induction m as [m IH|m IH|]; simpl digits2_pos.
  - rewrite Pos2Z.inj_succ.
    replace (Z.succ (Z.pos (digits2_pos m)) - 1)
      with (Z.succ (Z.pos (digits2_pos m) - 1)) by lia.
    rewrite !Z.pow_succ_r by lia. lia.
  - rewrite Pos2Z.inj_succ.
    replace (Z.succ (Z.pos (digits2_pos m)) - 1)
      with (Z.succ (Z.pos (digits2_pos m) - 1)) by lia.
    rewrite !Z.pow_succ_r by lia. lia.
  - simpl. lia.
Qed.

Lemma digits2_pos_shift m k :
  digits2_pos (Pos.iter xO m k) = (digits2_pos m + k)%positive.
Proof.
  induction k as [|k IH] using Pos.peano_ind.
  - simpl. lia.
  - rewrite Pos.iter_succ. simpl. rewrite IH. lia.
Qed.

Lemma pos_shift_value m k : Z.pos (Pos.iter xO m k) = Z.pos m * 2 ^ Z.pos k.
Proof.
  induction k as [|k IH] using Pos.peano_ind.
  - simpl. lia.
  - rewrite Pos.iter_succ, Pos2Z.inj_succ, Z.pow_succ_r by lia.
    rewrite Pos2Z.inj_xO, IH. lia.
Qed.

Ltac zero_shift :=
  match goal with
  | |- context [Z.max ?a ?b - ?c] => replace (Z.max a b - c) with 0 by lia
  end.

(** A mantissa of 53 digits with an exponent in range is not rounded. *)
Lemma binary_round_aux_exact mz ez :
  Z.pos (digits2_pos mz) = 53 -> -1074 <= ez <= 971 ->
  binary_round_aux 53 1024 false (Z.pos mz) ez loc_Exact
  = S754_finite false mz ez.
Proof.
  intros Hd He.
  unfold binary_round_aux, shr_fexp, shr, fexp, emin. cbn [Zdigits2].
  rewrite Hd. zero_shift.
  cbn [shr_record_of_loc shr_m loc_of_shr_record round_nearest_even Zdigits2].
  rewrite Hd. zero_shift.
  cbn [shr_record_of_loc shr_m].
  replace (ez <=? 1024 - 53) with true by (symmetry; apply Z.leb_le; lia).
  reflexivity.
Qed.

(** An integer below 2^53 is a double, and truncating it gives it back. *)
Lemma truncate_of_Z n : 0 <= n < 2 ^ 53 -> JS.truncate (JS.of_Z n) = n.
Proof.
  intros [Hlo Hhi]. destruct n as [|m|m]; [reflexivity| |lia].
  pose proof (digits2_pos_bounds m) as [Hd1 Hd2].
  assert (Hd : Z.pos (digits2_pos m) <= 53).
  { destruct (Z_le_gt_dec (Z.pos (digits2_pos m)) 53) as [|Hgt]; [assumption|].
    assert (2 ^ 53 <= 2 ^ (Z.pos (digits2_pos m) - 1))
      by (apply Z.pow_le_mono_r; lia).
    lia. }
  unfold JS.of_Z, JS.dyadic, binary_normalize, binary_round, JS.prec, JS.emax.
  unfold fexp at 1, emin. rewrite Z.add_0_r.
  replace (Z.max (Z.pos (digits2_pos m) - 53) (3 - 1024 - 53))
    with (Z.pos (digits2_pos m) - 53) by lia.
  unfold shl_align. rewrite Z.sub_0_r.
  destruct (Z.pos (digits2_pos m) - 53) as [|k|k] eqn:Ek; [| lia |].
  - rewrite binary_round_aux_exact by lia.
    unfold JS.truncate, cond_Zopp. apply Z.shiftl_0_r.
  - rewrite binary_round_aux_exact
      by (rewrite ?digits2_pos_shift, ?Pos2Z.inj_add; lia).
    unfold JS.truncate, cond_Zopp.
    rewrite Z.shiftl_div_pow2 by lia.
    rewrite pos_shift_value. change (- Z.neg k) with (Z.pos k).
    apply Z.div_mul. pose proof (Z.pow_pos_nonneg 2 (Z.pos k)). lia.
Qed.

(** Assigning a whole number below 2^31 to a canvas dimension stores
    it. *)
Lemma reflect_of_Z d n :
  0 <= n < 2 ^ 31 -> Host.reflect_unsigned_long d (JS.of_Z n) = n.
Proof.
  intros Hn. unfold Host.reflect_unsigned_long, JS.ToUint32.
  rewrite truncate_of_Z by lia.
  rewrite Z.mod_small by lia.
  replace (n <=? 2147483647) with true by (symmetry; apply Z.leb_le; lia).
  reflexivity.
Qed.

(** [JS.truncate] of a positive double [m * 2^e] is its integer part:
    the product itself when [e] is not negative, and otherwise the one
    integer [n] with [n <= m / 2^(-e) < n + 1]. *)
Lemma truncate_integer_part m e :
  let n := JS.truncate (S754_finite false m e) in
  (0 <= e -> n = Z.pos m * 2 ^ e) /\
  (e < 0 -> n * 2 ^ (- e) <= Z.pos m < (n + 1) * 2 ^ (- e)).
Proof.
  cbn [JS.truncate cond_Zopp]. split; intros He.
  - now apply Z.shiftl_mul_pow2.
  - rewrite Z.shiftl_div_pow2 by lia.
    assert (Hp : 0 < 2 ^ (- e)) by (apply Z.pow_pos_nonneg; lia).
    pose proof (Z.mul_div_le (Z.pos m) (2 ^ (- e)) Hp).
    pose proof (Z.mul_succ_div_gt (Z.pos m) (2 ^ (- e)) Hp).
    lia.
Qed.

(** Assigning a number whose integer part is below 2^31 to a canvas
    dimension stores the integer part; with an integer part from 2^31 to
    2^32 - 1 the attribute takes its default. *)
Lemma reflect_integer_part d x :
  0 <= JS.truncate x < 2 ^ 31 ->
  Host.reflect_unsigned_long d x = JS.truncate x.
Proof.
  intros Hn. unfold Host.reflect_unsigned_long, JS.ToUint32.
  rewrite Z.mod_small by lia.
  replace (JS.truncate x <=? 2147483647) with true
    by (symmetry; apply Z.leb_le; lia).
  reflexivity.
Qed.

Lemma reflect_default d x :
  2 ^ 31 <= JS.truncate x < 2 ^ 32 -> Host.reflect_unsigned_long d x = d.
Proof.
  intros Hn. unfold Host.reflect_unsigned_long, JS.ToUint32.
  rewrite Z.mod_small by lia.
  replace (JS.truncate x <=? 2147483647) with false
    by (symmetry; apply Z.leb_gt; lia).
  reflexivity.
Qed.

(** ** Typed arrays *)

Lemma store_length a vs :
  List.length (TypedArray.store a vs) = List.length a.
Proof.
  revert vs. induction a as [|x a IH]; intros [|v vs]; simpl; auto.
Qed.

Lemma buffer_length a :
  List.length (TypedArray.buffer a) = (4 * List.length a)%nat.
Proof.
  unfold TypedArray.buffer. induction a as [|x a IH]; simpl; auto.
  rewrite IH. lia.
Qed.

Lemma byteLength_buffer a :
  TypedArray.byteLength a = Z.of_nat (List.length (TypedArray.buffer a)).
Proof.
  unfold TypedArray.byteLength, TypedArray.length. rewrite buffer_length. lia.
Qed.

Lemma byteLength_mod_4 a : TypedArray.byteLength a mod 4 = 0.
Proof. unfold TypedArray.byteLength. rewrite Z.mul_comm. apply Z_mod_mult. Qed.

Lemma byteLength_16 a :
  List.length a = 16%nat -> TypedArray.byteLength a = 64.
Proof. intros H. unfold TypedArray.byteLength, TypedArray.length. now rewrite H. Qed.

(** ** The monad and the host calls *)

Lemma bind_eq {S A B} (c : M S A) (k : A -> M S B) s s' a :
  c s = (s', inr a) -> bind c k s = k a s'.
Proof. intros H. unfold bind. now rewrite H. Qed.

Lemma bind_liftW {A B} (c : M World A) (k : A -> M Prog B) p w' a :
  c (world p) = (w', inr a) ->
  bind (liftW c) k p = k a {| globals := globals p; world := w' |}.
Proof. intros H. unfold bind, liftW. now rewrite H. Qed.

(** A mapped-at-creation buffer sized after a Float32Array is created. *)
Lemma createBuffer_mapped (a : Float32Array) usage w :
  Host.createBuffer (TypedArray.byteLength a) usage true w
  = (with_trace
       (trace w ++ [EvCreateBuffer (next_handle w) (TypedArray.byteLength a) usage true])
       (with_buffers
          (<[next_handle w :=
               {| buf_size := TypedArray.byteLength a; buf_usage := usage;
                  buf_mapped := true;
                  buf_bytes := repeat ZeroByte (Z.to_nat (TypedArray.byteLength a)) |}]>
             (buffers w))
          (with_next_handle (S (next_handle w)) w)),
     inr (next_handle w)).
Proof.
  unfold Host.createBuffer. rewrite byteLength_mod_4.
  destruct w. reflexivity.
Qed.

(** Filling such a buffer through its mapped range replaces all of it. *)
Lemma mapped_set_fresh h (a : Float32Array) usage w :
  buffers w !! h
  = Some {| buf_size := TypedArray.byteLength a; buf_usage := usage;
            buf_mapped := true;
            buf_bytes := repeat ZeroByte (Z.to_nat (TypedArray.byteLength a)) |} ->
  Host.mapped_set h a w
  = (with_trace (trace w ++ [EvMappedWrite h (TypedArray.buffer a)])
       (with_buffers
          (<[h := {| buf_size := TypedArray.byteLength a; buf_usage := usage;
                     buf_mapped := true; buf_bytes := TypedArray.buffer a |}]>
             (buffers w)) w),
     inr tt).
Proof.
  intros Hb. unfold Host.mapped_set. unfold bind at 1. unfold get. rewrite Hb.
  cbn [buf_mapped buf_size buf_usage buf_bytes negb].
  rewrite Z.ltb_irrefl, skipn_all2.
  2:{ rewrite repeat_length, byteLength_buffer, Nat2Z.id. lia. }
  rewrite app_nil_r. destruct w. reflexivity.
Qed.

(** Writing a whole array at offset 0 of a buffer of the same size
    succeeds and replaces all of the buffer. *)
Lemma writeBuffer_whole h b m w :
  buffers w !! h = Some b ->
  buf_mapped b = false -> Z.testbit (buf_usage b) 3 = true ->
  buf_size b = TypedArray.byteLength m ->
  List.length (buf_bytes b) = Z.to_nat (buf_size b) ->
  Host.writeBuffer h 0 (TypedArray.buffer m) (TypedArray.byteOffset m)
    (TypedArray.byteLength m) w
  = (with_trace (trace w ++ [EvWriteBuffer h 0 (TypedArray.buffer m)])
       (with_buffers
          (<[h := {| buf_size := buf_size b; buf_usage := buf_usage b;
                     buf_mapped := buf_mapped b;
                     buf_bytes := TypedArray.buffer m |}]> (buffers w)) w),
     inr tt).
Proof.
  intros Hb Hmap Huse Hsz Hlen.
  pose proof (byteLength_buffer m) as Hbl.
  assert (C1 : (0 <=? TypedArray.byteLength m) && (0 <=? 0)
               && (0 + TypedArray.byteLength m
                   <=? Z.of_nat (List.length (TypedArray.buffer m)))
               && (TypedArray.byteLength m mod 4 =? 0) = true).
  { rewrite byteLength_mod_4, !andb_true_iff.
    repeat split; try (apply Z.leb_le; lia). }
  assert (C2 : negb (buf_mapped b) && Z.testbit (buf_usage b) 3
               && (0 <=? 0) && (0 mod 4 =? 0)
               && (0 + TypedArray.byteLength m <=? buf_size b) = true).
  { rewrite Hmap, Huse, Hsz, !andb_true_iff.
    repeat split; try (apply Z.leb_le; lia). }
  assert (C3 : firstn (Z.to_nat (TypedArray.byteLength m))
                 (skipn (Z.to_nat 0) (TypedArray.buffer m))
               = TypedArray.buffer m).
  { change (Z.to_nat 0) with 0%nat.
    rewrite skipn_O, Hbl, Nat2Z.id. apply firstn_all. }
  assert (C4 : firstn (Z.to_nat 0) (buf_bytes b)
               ++ TypedArray.buffer m
               ++ skipn (Z.to_nat (0 + TypedArray.byteLength m)) (buf_bytes b)
               = TypedArray.buffer m).
  { rewrite Z.add_0_l. change (Z.to_nat 0) with 0%nat.
    rewrite firstn_O, app_nil_l.
    rewrite (skipn_all2 (buf_bytes b)); [apply app_nil_r|].
    rewrite Hlen, Hsz. lia. }
  unfold Host.writeBuffer, TypedArray.byteOffset.
  rewrite C1. cbn [negb]. unfold bind at 1. unfold get.
  rewrite Hb, C2, C3, C4.
  destruct w. reflexivity.
Qed.

(** Symbolic evaluation of the program text: everything but arithmetic,
    array contents and map operations. *)
Ltac evaluate :=
  cbn -[Host.writeBuffer Host.createBuffer Host.mapped_set
        JS.mul JS.div JS.of_Z TypedArray.store TypedArray.buffer
        TypedArray.byteLength TypedArray.byteOffset TypedArray.create
        resize_needed vec3_fromValues Host.reflect_unsigned_long
        insert alter lookup empty].

Section ProgramProofs.

Context (cube : CubeModule) (lib : MatrixLibrary).

Local Abbreviation main := (main cube lib).
Local Abbreviation frame := (frame cube lib).
Local Abbreviation main_post := (main_post cube lib).
Local Abbreviation frame_post := (frame_post cube lib).
Local Abbreviation frame_events := (frame_events cube lib).
Local Abbreviation started := (started cube lib).
Local Abbreviation step := (step cube lib).
Local Abbreviation reachable := (reachable cube lib).
Local Abbreviation invocation := (invocation cube lib).
Local Abbreviation consistent := (consistent cube).
Local Abbreviation transformationMatrix_of := (transformationMatrix_of lib).
Local Abbreviation render_trace := (render_trace cube lib).

(** ** Set-up *)

(** On a capable host set-up runs to its end and leaves [main_post]. *)
Lemma main_eq env cw ch t :
  capable env = true ->
  main env (initial_world cw ch t)
  = (world (main_post env cw ch t), inr (globals (main_post env cw ch t))).
Proof.
  unfold capable. rewrite !andb_true_iff.
  intros [[[[[Hgpu Had] Hdev] Hsh] Hcv] Hctx].
  destruct (shader_file env) as [code|] eqn:Hcode; [|discriminate].
  unfold main, main_post, initial_world.
  rewrite Hgpu, Had, Hdev, Hcode, Hcv, Hctx.
  evaluate.
  erewrite bind_eq; [| apply createBuffer_mapped ]. evaluate.
  erewrite bind_eq;
    [| apply mapped_set_fresh with (usage := GPUBufferUsage.VERTEX); evaluate;
       apply lookup_insert_eq ].
  evaluate.
  unfold Host.createBuffer at 1. evaluate.
  reflexivity.
Qed.

(** Without WebGPU the check logs once, and the very next statement
    throws. *)
Lemma main_without_gpu env w :
  navigator_gpu env = false ->
  main env w
  = (with_trace
       (trace w ++ [EvConsoleError "WebGPU is not supported in this browser."]) w,
     inl (TypeError "navigator.gpu is undefined")).
Proof.
  intros H. unfold main. rewrite H. destruct w. reflexivity.
Qed.

(** With WebGPU nothing is logged, whatever happens next. *)
Lemma main_with_gpu_logs_nothing env w :
  navigator_gpu env = true ->
  Trace.console_errors (trace (fst (main env w))) = Trace.console_errors (trace w).
Proof.
  intros Hgpu. unfold main. rewrite Hgpu. destruct w as [c k f ts bs n cbs tr].
  destruct (adapter_found env); [|reflexivity].
  destruct (device_granted env); [|reflexivity].
  destruct (shader_file env) as [code|]; [|reflexivity].
  assert (Happ : forall e, Trace.console_errors (tr ++ [e])
                 = Trace.console_errors tr ++ Trace.console_errors [e]).
  { intros e. unfold Trace.console_errors. now rewrite flat_map_app. }
  destruct (canvas_element env);
    [| evaluate; rewrite Happ; apply app_nil_r].
  destruct (webgpu_context env).
  - evaluate.
    erewrite bind_eq; [| apply createBuffer_mapped ]. evaluate.
    erewrite bind_eq;
      [| apply mapped_set_fresh with (usage := GPUBufferUsage.VERTEX); evaluate;
         apply lookup_insert_eq ].
    evaluate.
    unfold Host.createBuffer at 1. evaluate.
    unfold Trace.console_errors. rewrite !flat_map_app. cbn [flat_map app].
    now rewrite !app_nil_r.
  - evaluate. rewrite Happ. apply app_nil_r.
Qed.

(** Nothing is caught: whatever the host lacks, set-up ends in an
    exception. *)
Lemma main_throws env w :
  capable env = false -> exists w' e, main env w = (w', inl e).
Proof.
  unfold capable, main. intros H. destruct w as [c k f ts bs n cbs tr].
  destruct (navigator_gpu env); [|eexists _, _; reflexivity].
  destruct (adapter_found env); [|eexists _, _; reflexivity].
  destruct (device_granted env); [|eexists _, _; reflexivity].
  destruct (shader_file env) as [code|]; [|eexists _, _; reflexivity].
  destruct (canvas_element env); [|eexists _, _; reflexivity].
  destruct (webgpu_context env); [discriminate|].
  eexists _, _. reflexivity.
Qed.

Lemma started_eq p :
  started p ->
  exists env cw ch t,
    capable env = true /\
    dpr_ok (window_devicePixelRatio env) /\ client_ok cw /\ client_ok ch /\
    p = main_post env cw ch t.
Proof.
  intros (env & cw & ch & t & Hdpr & Hcw & Hch & Hmain).
  exists env, cw, ch, t.
  destruct (capable env) eqn:Hcap.
  - rewrite main_eq in Hmain by assumption.
    split; [reflexivity|]. do 3 (split; [assumption|]).
    destruct p as [g w]. unfold main_post in *. cbn [world globals] in Hmain.
    injection Hmain as <- <-. reflexivity.
  - destruct (main_throws env (initial_world cw ch t) Hcap) as (w' & e & He).
    rewrite He in Hmain. discriminate.
Qed.

(** ** One frame *)

(** [frame] never throws in a consistent state, and leaves
    [frame_post]. *)
Lemma frame_eq p t ub :
  depthTexture (globals p) = Some t ->
  buffers (world p) !! uniformBuffer (globals p) = Some ub ->
  buf_size ub = 64 -> buf_mapped ub = false ->
  Z.testbit (buf_usage ub) 3 = true ->
  List.length (buf_bytes ub) = 64%nat ->
  List.length (modelViewProjectionMatrix (globals p)) = 16%nat ->
  configured (world p) = true ->
  frame p = (frame_post p t ub, inr tt).
Proof.
  intros Ht Hub Hsz Hmap Huse Hlen Hmvp Hcfg.
  assert (Hw : forall w', buffers w' = buffers (world p) ->
     Host.writeBuffer (uniformBuffer (globals p)) 0
       (TypedArray.buffer (transformationMatrix_of p))
       (TypedArray.byteOffset (transformationMatrix_of p))
       (TypedArray.byteLength (transformationMatrix_of p)) w'
     = (with_trace
          (trace w' ++ [EvWriteBuffer (uniformBuffer (globals p)) 0
                          (TypedArray.buffer (transformationMatrix_of p))])
          (with_buffers
             (<[uniformBuffer (globals p) :=
                  {| buf_size := buf_size ub; buf_usage := buf_usage ub;
                     buf_mapped := buf_mapped ub;
                     buf_bytes := TypedArray.buffer (transformationMatrix_of p) |}]>
                (buffers w')) w'), inr tt)).
  { intros w' Hw'. apply writeBuffer_whole; auto.
    - now rewrite Hw'.
    - rewrite Hsz. symmetry. apply byteLength_16.
      unfold transformationMatrix_of. now rewrite store_length.
    - rewrite Hlen, Hsz. reflexivity. }
  unfold frame_post, render_trace, resize_trace, frame_descriptor,
    resized_depthTexture, resized_canvas, frame, getTransformationMatrix.
  destruct (resize_needed (currentWidth p) (currentHeight p) p) eqn:E;
    unfold currentWidth, currentHeight in E;
    unfold bind at 1; unfold get at 1; rewrite E;
    destruct p as [[g1 g2 g3 g4 g5 g6 g7 g8 g9 g10 g11] [w1 w2 w3 w4 w5 w6 w7 w8]];
    cbn [globals world depthTexture configured] in Ht, Hcfg; subst g5 w3;
    evaluate; (erewrite bind_liftW; [| apply Hw; reflexivity]); evaluate;
    rewrite <- !app_assoc; reflexivity.
Qed.

(** ** The invariant *)

Lemma consistent_main_post env cw ch t :
  JS.is_finite_pos (window_devicePixelRatio env) = true ->
  consistent (main_post env cw ch t).
Proof.
  intros Hdpr. unfold main_post. constructor; cbn [globals world
    depthTexture textures canvas width height uniformBuffer buffers
    verticesBuffer modelViewProjectionMatrix configured next_handle
    devicePixelRatio].
  - eexists _, _. split; [reflexivity|]. split; [apply lookup_insert_eq|].
    repeat split.
  - eexists. split; [apply lookup_insert_eq|]. repeat split.
  - rewrite lookup_insert_ne by discriminate. apply lookup_insert_eq.
  - discriminate.
  - reflexivity.
  - reflexivity.
  - intros h Hh. rewrite lookup_insert_ne by lia. apply lookup_empty.
  - exact Hdpr.
Qed.

Lemma consistent_host_update p cw ch t :
  consistent p -> consistent (host_update cw ch t p).
Proof.
  intros [Hd Hu Hv Hne Hm Hc Hf Hr].
  destruct p as [g [c k f ts bs n cbs tr]].
  constructor; assumption.
Qed.

Lemma consistent_dequeue p rest :
  consistent p -> consistent (dequeue rest p).
Proof.
  intros [Hd Hu Hv Hne Hm Hc Hf Hr].
  destruct p as [g [c k f ts bs n cbs tr]].
  constructor; assumption.
Qed.

(** A consistent state has what [frame_eq] asks for. *)
Lemma consistent_frame_eq p :
  consistent p ->
  exists t tex ub,
    depthTexture (globals p) = Some t /\
    textures (world p) !! t = Some tex /\
    tex_width tex = width (canvas (world p)) /\
    tex_height tex = height (canvas (world p)) /\
    tex_destroyed tex = false /\
    buffers (world p) !! uniformBuffer (globals p) = Some ub /\
    buf_size ub = 64 /\
    frame p = (frame_post p t ub, inr tt).
Proof.
  intros [(t & tex & Ht & Htex & Hw & Hh & Hd)
          (ub & Hub & Hsz & Hmap & Huse & Hlen) Hv Hne Hm Hc Hf Hr].
  exists t, tex, ub. repeat (split; [assumption|]).
  apply frame_eq; try assumption. now rewrite Huse.
Qed.

Lemma consistent_frame_post p t tex ub :
  consistent p ->
  depthTexture (globals p) = Some t ->
  textures (world p) !! t = Some tex ->
  buffers (world p) !! uniformBuffer (globals p) = Some ub ->
  consistent (frame_post p t ub).
Proof.
  intros [(t0 & tex0 & Ht0 & Htex0 & Hw0 & Hh0 & Hd0)
          (ub0 & Hub0 & Hsz & Hmap & Huse & Hlen) Hv Hne Hm Hc Hf Hr]
         Ht Htex Hub.
  rewrite Ht in Ht0. injection Ht0 as <-.
  rewrite Htex in Htex0. injection Htex0 as <-.
  rewrite Hub in Hub0. injection Hub0 as <-.
  assert (Hlt : (t < next_handle (world p))%nat).
  { destruct (Nat.lt_ge_cases t (next_handle (world p))) as [|Hge]; [assumption|].
    rewrite (Hf t Hge) in Htex. discriminate. }
  unfold frame_post, frame_descriptor, resized_depthTexture, resized_canvas.
  destruct (resize_needed (currentWidth p) (currentHeight p) p);
    constructor; cbn [globals world depthTexture textures canvas width height
      uniformBuffer buffers verticesBuffer modelViewProjectionMatrix configured
      next_handle devicePixelRatio]; try assumption.
  - eexists _, _. split; [reflexivity|]. split; [apply lookup_insert_eq|].
    repeat split.
  - eexists. split; [apply lookup_insert_eq|].
    cbn [buf_size buf_mapped buf_usage buf_bytes]. repeat split; try assumption.
    rewrite buffer_length. unfold transformationMatrix_of.
    now rewrite store_length, Hm.
  - now rewrite lookup_insert_ne by congruence.
  - unfold transformationMatrix_of. now rewrite store_length.
  - intros h Hh. rewrite lookup_insert_ne by lia.
    rewrite lookup_alter_ne by lia. apply Hf. lia.
  - exists t, tex. split; [reflexivity|]. repeat (split; [assumption|]). assumption.
  - eexists. split; [apply lookup_insert_eq|].
    cbn [buf_size buf_mapped buf_usage buf_bytes]. repeat split; try assumption.
    rewrite buffer_length. unfold transformationMatrix_of.
    now rewrite store_length, Hm.
  - now rewrite lookup_insert_ne by congruence.
  - unfold transformationMatrix_of. now rewrite store_length.
Qed.

Lemma consistent_frame p :
  consistent p -> consistent (fst (frame p)) /\ snd (frame p) = inr tt.
Proof.
  intros Hp.
  destruct (consistent_frame_eq p Hp)
    as (t & tex & ub & Ht & Htex & _ & _ & _ & Hub & _ & Heq).
  rewrite Heq. split; [|reflexivity].
  now apply consistent_frame_post with (tex := tex).
Qed.

(** Between two host tasks the program is consistent and exactly one
    callback is pending. *)
Lemma reachable_consistent p :
  reachable p ->
  consistent p /\ animation_callbacks (world p) = [CbFrame].
Proof.
  intros (p0 & Hstart & Hrun). revert p Hrun.
  apply (rtc_ind_r (fun p => consistent p /\ animation_callbacks (world p) = [CbFrame])).
  - destruct (started_eq p0 Hstart) as (env & cw & ch & t & _ & [Hfin _] & _ & _ & ->).
    split; [now apply consistent_main_post | reflexivity].
  - intros q r _ Hstep [Hq Hcbs].
    destruct Hstep as [q cw ch t Hcw Hch | q rest Hpending].
    + split; [now apply consistent_host_update|].
      destruct q as [g [c k f ts bs n cbs tr]]. exact Hcbs.
    + rewrite Hcbs in Hpending. injection Hpending as <-.
      pose proof (consistent_dequeue q [] Hq) as Hdq.
      destruct (consistent_frame_eq _ Hdq)
        as (t & tex & ub & Ht & Htex & _ & _ & _ & Hub & _ & Heq).
      rewrite Heq. split.
      * now apply consistent_frame_post with (tex := tex).
      * destruct q as [g [c k f ts bs n cbs tr]]. reflexivity.
Qed.

(** When [frame] is invoked the program is consistent and nothing else is
    pending. *)
Lemma invocation_consistent q :
  invocation q ->
  consistent q /\ animation_callbacks (world q) = [].
Proof.
  intros (p & rest & Hp & Hpending & ->).
  destruct (reachable_consistent p Hp) as [Hc Hcbs].
  rewrite Hcbs in Hpending. injection Hpending as <-.
  split; [now apply consistent_dequeue|].
  destruct p as [g [c k f ts bs n cbs tr]]. reflexivity.
Qed.

(** ** What a frame does *)

Lemma skipn_length_app {A} (l1 l2 : list A) :
  skipn (List.length l1) (l1 ++ l2) = l2.
Proof. induction l1 as [|x l1 IH]; simpl; auto. Qed.

Lemma invocation_frame q :
  invocation q ->
  exists t tex ub,
    depthTexture (globals q) = Some t /\
    textures (world q) !! t = Some tex /\
    tex_width tex = width (canvas (world q)) /\
    tex_height tex = height (canvas (world q)) /\
    tex_destroyed tex = false /\
    buffers (world q) !! uniformBuffer (globals q) = Some ub /\
    buf_size ub = 64 /\
    frame q = (frame_post q t ub, inr tt).
Proof.
  intros Hq. apply consistent_frame_eq. now apply invocation_consistent.
Qed.

Lemma frame_events_post q t ub :
  frame q = (frame_post q t ub, inr tt) ->
  frame_events q = resize_trace q t ++ render_trace q t.
Proof.
  intros Heq. unfold frame_events. rewrite Heq.
  unfold frame_post. cbn [fst world trace]. apply skipn_length_app.
Qed.

(** In a consistent state the test of line 115 is the specification's:
    the depth texture is always there, and a scaled size is never NaN. *)
Lemma resize_needed_size_differs q :
  consistent q ->
  resize_needed (currentWidth q) (currentHeight q) q = size_differs q.
Proof.
  intros [(t & tex & Ht & _) _ _ _ _ _ _ Hr].
  unfold resize_needed, size_differs. rewrite Ht. cbn [defined negb].
  rewrite orb_false_r.
  rewrite !ToBoolean_nonzero by (now apply scaled_not_nan).
  reflexivity.
Qed.

Lemma resize_trace_lifecycle q t :
  existsb Trace.texture_lifecycle (resize_trace q t)
  = resize_needed (currentWidth q) (currentHeight q) q.
Proof.
  unfold resize_trace. now destruct (resize_needed _ _ _).
Qed.

(** C1: in every invocation of [frame] the depth-stencil attachment view
    of the encoded render pass is a view created, in this invocation, from
    the depth texture, and that texture's dimensions are [canvas.width] and
    [canvas.height] as they are when the pass is encoded (nothing after
    line 125 changes them). *)
Theorem depth_attachment_matches_canvas q :
  invocation q ->
  exists t tex pass,
    snd (frame q) = inr tt /\
    Trace.submissions (frame_events q)
      = [[ {| cb_label := "frame"; cb_passes := [pass] |} ]] /\
    pass_depth_view pass = ViewOfTexture t /\
    In (EvCreateView (ViewOfTexture t)) (frame_events q) /\
    depthTexture (globals (fst (frame q))) = Some t /\
    textures (world (fst (frame q))) !! t = Some tex /\
    tex_destroyed tex = false /\
    tex_width tex = width (canvas (world (fst (frame q)))) /\
    tex_height tex = height (canvas (world (fst (frame q)))).
Proof.
  intros Hq.
  destruct (invocation_consistent q Hq) as [Hc _].
  destruct (consistent_frame_eq q Hc)
    as (t & tex & ub & Ht & Htex & _ & _ & _ & Hub & _ & Heq).
  pose proof (consistent_frame_post q t tex ub Hc Ht Htex Hub) as Hpost.
  destruct Hpost as [(t' & tex' & Ht' & Htex' & Hw' & Hh' & Hd') _ _ _ _ _ _ _].
  rewrite (frame_events_post q t ub Heq), Heq. cbn [fst snd].
  unfold frame_post in Ht'. cbn [globals depthTexture] in Ht'.
  injection Ht' as <-.
  exists (resized_depthTexture q t), tex'. eexists.
  split; [reflexivity|]. split.
  { unfold Trace.submissions. rewrite flat_map_app.
    unfold resize_trace. destruct (resize_needed _ _ _); reflexivity. }
  split; [reflexivity|]. split.
  { apply in_or_app. right. left. reflexivity. }
  split; [reflexivity|]. repeat (split; [assumption|]). assumption.
Qed.

(** C2: every invocation of [frame] writes the recomputed 4x4
    model-view-projection matrix into the uniform buffer at offset 0, and
    afterwards submits exactly one command buffer, which holds exactly one
    draw call, of [cubeVertexCount] vertices. *)
Theorem frame_updates_matrix_then_draws_once q :
  invocation q ->
  let m := transformationMatrix_of q in
  exists before between cb ub,
    snd (frame q) = inr tt /\
    List.length m = 16%nat /\
    modelViewProjectionMatrix (globals (fst (frame q))) = m /\
    frame_events q
      = before
        ++ EvWriteBuffer (uniformBuffer (globals q)) 0 (TypedArray.buffer m)
        :: between ++ [EvSubmit [cb]; EvRequestAnimationFrame CbFrame] /\
    Trace.writes (frame_events q)
      = [(uniformBuffer (globals q), 0, TypedArray.buffer m)] /\
    Trace.submissions (frame_events q) = [[cb]] /\
    Trace.draws cb = [cubeVertexCount cube] /\
    buffers (world (fst (frame q))) !! uniformBuffer (globals q) = Some ub /\
    buf_bytes ub = TypedArray.buffer m.
Proof.
  intros Hq m.
  destruct (invocation_consistent q Hq) as [Hc _].
  destruct (consistent_frame_eq q Hc)
    as (t & tex & ub & Ht & Htex & _ & _ & _ & Hub & _ & Heq).
  rewrite (frame_events_post q t ub Heq), Heq. cbn [fst snd].
  exists (resize_trace q t
          ++ [EvCreateView (ViewOfTexture (resized_depthTexture q t))]).
  eexists [_]. eexists. eexists.
  split; [reflexivity|]. split.
  { unfold m, transformationMatrix_of. rewrite store_length. apply Hc. }
  split; [reflexivity|]. split.
  { rewrite <- app_assoc. reflexivity. }
  split.
  { unfold Trace.writes. rewrite flat_map_app.
    unfold resize_trace. destruct (resize_needed _ _ _); reflexivity. }
  split.
  { unfold Trace.submissions. rewrite flat_map_app.
    unfold resize_trace. destruct (resize_needed _ _ _); reflexivity. }
  split; [reflexivity|].
  unfold frame_post. cbn [world buffers].
  split; [apply lookup_insert_eq | reflexivity].
Qed.

(** C10: the uniform buffer has [4 * 16 = 64] bytes, the byte length of
    the matrix written in every frame; the write at offset 0 is within the
    buffer (it is carried out, with neither an exception nor a validation
    error) and replaces every byte of it. *)
Theorem uniform_write_fills_buffer q :
  invocation q ->
  let m := transformationMatrix_of q in
  exists ub ub',
    uniformBufferSize = 64 /\
    buffers (world q) !! uniformBuffer (globals q) = Some ub /\
    buf_size ub = uniformBufferSize /\
    TypedArray.byteOffset m = 0 /\
    TypedArray.byteLength m = buf_size ub /\
    snd (frame q) = inr tt /\
    existsb Trace.validation_error (frame_events q) = false /\
    Trace.writes (frame_events q)
      = [(uniformBuffer (globals q), 0, TypedArray.buffer m)] /\
    0 + Z.of_nat (List.length (TypedArray.buffer m)) = buf_size ub /\
    buffers (world (fst (frame q))) !! uniformBuffer (globals q) = Some ub' /\
    buf_size ub' = buf_size ub /\
    buf_bytes ub' = TypedArray.buffer m.
Proof.
  intros Hq m.
  destruct (invocation_consistent q Hq) as [Hc _].
  destruct (consistent_frame_eq q Hc)
    as (t & tex & ub & Ht & Htex & _ & _ & _ & Hub & Hsz & Heq).
  assert (Hm : TypedArray.byteLength m = 64).
  { apply byteLength_16. unfold m, transformationMatrix_of.
    rewrite store_length. apply Hc. }
  rewrite (frame_events_post q t ub Heq), Heq. cbn [fst snd].
  exists ub. eexists.
  split; [reflexivity|]. split; [exact Hub|]. split; [exact Hsz|].
  split; [reflexivity|]. split; [now rewrite Hsz|]. split; [reflexivity|].
  split.
  { rewrite existsb_app. unfold resize_trace.
    destruct (resize_needed _ _ _); reflexivity. }
  split.
  { unfold Trace.writes. rewrite flat_map_app.
    unfold resize_trace. destruct (resize_needed _ _ _); reflexivity. }
  split; [now rewrite <- byteLength_buffer, Hm, Hsz|].
  unfold frame_post. cbn [world buffers].
  split; [apply lookup_insert_eq|]. split; reflexivity.
Qed.

(** C5: the only check is the one for [navigator.gpu]: when it is absent
    the module logs one message and goes on, so that the next statement
    throws; when it is present nothing is logged; and whatever the host
    fails to provide, set-up ends in an exception that nothing catches. *)
Theorem missing_gpu_logged_not_handled env w :
  (navigator_gpu env = false ->
   main env w
   = (with_trace
        (trace w ++ [EvConsoleError "WebGPU is not supported in this browser."]) w,
      inl (TypeError "navigator.gpu is undefined"))) /\
  (navigator_gpu env = true ->
   Trace.console_errors (trace (fst (main env w)))
   = Trace.console_errors (trace w)) /\
  (capable env = false -> exists e, snd (main env w) = inl e).
Proof.
  split; [apply main_without_gpu|]. split; [apply main_with_gpu_logs_nothing|].
  intros H. destruct (main_throws env w H) as (w' & e & He).
  exists e. now rewrite He.
Qed.

(** The guard of line 115 at a scaled dimension that is zero: no
    invocation of [frame] throws, whether it resizes or not; and in every
    invocation in which a scaled client dimension is zero the resize
    branch is skipped: no texture is created or destroyed, and the canvas
    size and the depth texture of before stay in use. *)
Theorem zero_size_skips_resize q :
  invocation q ->
  snd (frame q) = inr tt /\
  (JS.is_zero (currentWidth q) = true \/ JS.is_zero (currentHeight q) = true ->
   exists t,
     existsb Trace.texture_lifecycle (frame_events q) = false /\
     width (canvas (world (fst (frame q)))) = width (canvas (world q)) /\
     height (canvas (world (fst (frame q)))) = height (canvas (world q)) /\
     textures (world (fst (frame q))) = textures (world q) /\
     depthTexture (globals q) = Some t /\
     depthTexture (globals (fst (frame q))) = Some t /\
     depth_view (renderPassDescriptor (globals (fst (frame q)))) = ViewOfTexture t).
Proof.
  intros Hq.
  destruct (invocation_frame q Hq)
    as (t & tex & ub & Ht & Htex & _ & _ & _ & Hub & _ & Heq).
  rewrite (frame_events_post q t ub Heq), Heq. cbn [fst snd].
  split; [reflexivity|]. intros Hzero.
  assert (Hneed : resize_needed (currentWidth q) (currentHeight q) q = false).
  { unfold resize_needed. destruct Hzero as [Hz|Hz];
      rewrite (ToBoolean_zero _ Hz).
    - now rewrite andb_false_r.
    - apply andb_false_r. }
  exists t.
  unfold frame_post, frame_descriptor, resize_trace, resized_depthTexture,
    resized_canvas.
  rewrite Hneed. cbn [globals world canvas textures depthTexture
    renderPassDescriptor depth_view app].
  repeat split; try reflexivity; assumption.
Qed.

(** C7: set-up registers [frame] exactly once; every invocation of [frame]
    starts with nothing else pending and registers [frame] exactly once;
    hence between any two host tasks exactly one animation callback is
    pending, and a frame is never invoked while another could be. *)
Theorem single_animation_callback_loop :
  (forall p, started p ->
     Trace.requests (trace (world p)) = [CbFrame] /\
     animation_callbacks (world p) = [CbFrame]) /\
  (forall q, invocation q ->
     animation_callbacks (world q) = [] /\
     snd (frame q) = inr tt /\
     Trace.requests (frame_events q) = [CbFrame] /\
     animation_callbacks (world (fst (frame q))) = [CbFrame]) /\
  (forall p, reachable p -> animation_callbacks (world p) = [CbFrame]).
Proof.
  split; [|split].
  - intros p Hp.
    destruct (started_eq p Hp) as (env & cw & ch & t & _ & _ & _ & _ & ->).
    split; reflexivity.
  - intros q Hq.
    destruct (invocation_consistent q Hq) as [_ Hcbs].
    destruct (invocation_frame q Hq)
      as (t & tex & ub & _ & _ & _ & _ & _ & _ & _ & Heq).
    rewrite (frame_events_post q t ub Heq), Heq. cbn [fst snd].
    split; [assumption|]. split; [reflexivity|]. split.
    + unfold Trace.requests. rewrite flat_map_app.
      unfold resize_trace. destruct (resize_needed _ _ _); reflexivity.
    + unfold frame_post. cbn [world animation_callbacks]. now rewrite Hcbs.
  - intros p Hp. now apply reachable_consistent.
Qed.

(** C8: set-up creates the vertex buffer mapped, writes the vertex data
    through the mapping and unmaps it, each once; from then on the buffer
    holds that data, and no invocation of [frame] writes to it, maps it or
    unmaps it. *)
Theorem vertex_buffer_written_once :
  (forall p, started p ->
     let vb := verticesBuffer (globals p) in
     let data := TypedArray.buffer (cubeVertexArray cube) in
     filter (fun e => Trace.creates_buffer vb e || Trace.touches_buffer vb e)
            (trace (world p))
     = [ EvCreateBuffer vb (TypedArray.byteLength (cubeVertexArray cube))
           GPUBufferUsage.VERTEX true;
         EvMappedWrite vb data;
         EvUnmap vb ]) /\
  (forall p, reachable p ->
     buffers (world p) !! verticesBuffer (globals p)
     = Some {| buf_size := TypedArray.byteLength (cubeVertexArray cube);
               buf_usage := GPUBufferUsage.VERTEX;
               buf_mapped := false;
               buf_bytes := TypedArray.buffer (cubeVertexArray cube) |}) /\
  (forall q, invocation q ->
     existsb (Trace.touches_buffer (verticesBuffer (globals q))) (frame_events q)
     = false /\
     verticesBuffer (globals (fst (frame q))) = verticesBuffer (globals q) /\
     buffers (world (fst (frame q))) !! verticesBuffer (globals q)
     = buffers (world q) !! verticesBuffer (globals q)).
Proof.
  split; [|split].
  - intros p Hp.
    destruct (started_eq p Hp) as (env & cw & ch & t & _ & _ & _ & _ & ->).
    reflexivity.
  - intros p Hp. now apply reachable_consistent.
  - intros q Hq.
    destruct (invocation_consistent q Hq) as [Hc _].
    destruct (invocation_frame q Hq)
      as (t & tex & ub & _ & _ & _ & _ & _ & _ & _ & Heq).
    rewrite (frame_events_post q t ub Heq), Heq. cbn [fst snd].
    assert (Hne : Nat.eqb (verticesBuffer (globals q)) (uniformBuffer (globals q))
                  = false).
    { apply Nat.eqb_neq. apply Hc. }
    split; [|split].
    + rewrite existsb_app. unfold resize_trace, render_trace.
      cbn [existsb Trace.touches_buffer]. rewrite Hne.
      destruct (resize_needed _ _ _); reflexivity.
    + reflexivity.
    + unfold frame_post. cbn [world buffers].
      apply lookup_insert_ne. intros E. symmetry in E. now apply Hc in E.
Qed.

(** C9: the projection matrix is the one [mat4.perspective] gave at
    start-up for the aspect ratio of the canvas of then; no host task, and
    so no frame, changes it; the matrix every frame writes is built from
    it, whatever [aspect] has become. *)
Theorem projection_fixed_at_startup p0 p :
  started p0 -> rtc step p0 p ->
  aspect (globals p0)
  = JS.div (JS.of_Z (width (canvas (world p0))))
      (JS.of_Z (height (canvas (world p0)))) /\
  projectionMatrix (globals p0)
  = TypedArray.store (TypedArray.create 16)
      (mat4_perspective lib
         (JS.div (JS.mul (JS.of_Z 2) JS.Math_PI) (JS.of_Z 5))
         (aspect (globals p0)) (JS.of_Z 1) (JS.of_Z 100)) /\
  projectionMatrix (globals p) = projectionMatrix (globals p0) /\
  (forall rest,
     animation_callbacks (world p) = CbFrame :: rest ->
     let q := dequeue rest p in
     projectionMatrix (globals (fst (frame q))) = projectionMatrix (globals p0) /\
     modelViewProjectionMatrix (globals (fst (frame q)))
     = TypedArray.store (modelViewProjectionMatrix (globals q))
         (mat4_multiply lib (projectionMatrix (globals p0))
            (viewMatrix_at lib (clock (world q))))).
Proof.
  intros Hstart Hrun.
  assert (Hfix : forall p, rtc step p0 p ->
            projectionMatrix (globals p) = projectionMatrix (globals p0)).
  { apply (rtc_ind_r (fun p => projectionMatrix (globals p)
                               = projectionMatrix (globals p0)));
      [reflexivity|].
    intros y z Hy Hstep IH.
    destruct Hstep as [y cw ch t Hcw Hch | y rest Hpending].
    - destruct y as [g [c k f ts bs n cbs tr]]. exact IH.
    - assert (Hinv : invocation (dequeue rest y)).
      { exists y, rest. split; [|split; [assumption|reflexivity]].
        exists p0. split; assumption. }
      destruct (invocation_frame _ Hinv)
        as (t & tex & ub & _ & _ & _ & _ & _ & _ & _ & Heq).
      rewrite Heq. cbn [fst]. unfold frame_post.
      cbn [globals projectionMatrix]. exact IH. }
  split.
  { destruct (started_eq p0 Hstart) as (env & cw & ch & t & _ & _ & _ & _ & ->).
    reflexivity. }
  split.
  { destruct (started_eq p0 Hstart) as (env & cw & ch & t & _ & _ & _ & _ & ->).
    reflexivity. }
  split; [now apply Hfix|].
  intros rest Hpending q.
  assert (Hinv : invocation q).
  { exists p, rest. split; [|split; [assumption|reflexivity]].
    exists p0. split; assumption. }
  assert (Hq : projectionMatrix (globals q) = projectionMatrix (globals p0)).
  { unfold q, dequeue. cbn [globals]. now apply Hfix. }
  destruct (invocation_frame _ Hinv)
    as (t & tex & ub & _ & _ & _ & _ & _ & _ & _ & Heq).
  rewrite Heq. cbn [fst]. unfold frame_post.
  cbn [globals projectionMatrix modelViewProjectionMatrix].
  split; [exact Hq|].
  unfold transformationMatrix_of. now rewrite Hq.
Qed.

(** C3, amended: the buffers, the pipeline, the bind group and the shader
    module are created once, by set-up, and no frame creates, destroys or
    replaces one of them; the depth texture is created once by set-up too,
    but a frame destroys it and creates a new one exactly when a scaled
    client dimension differs from the canvas's and neither is zero. *)
Theorem buffers_pipeline_bind_group_created_once :
  (forall p, started p ->
     let g := globals p in
     exists t wd ht,
       depthTexture g = Some t /\
       filter Trace.creation (trace (world p))
       = [ EvCreateShaderModule 0%nat;
           EvCreateBuffer (verticesBuffer g)
             (TypedArray.byteLength (cubeVertexArray cube))
             GPUBufferUsage.VERTEX true;
           EvCreateRenderPipeline (renderPipeline g) (cubeVertexSize cube)
             (cubePositionOffset cube) (cubeUVOffset cube);
           EvCreateBuffer (uniformBuffer g) uniformBufferSize
             (Z.lor GPUBufferUsage.UNIFORM GPUBufferUsage.COPY_DST) false;
           EvCreateBindGroup (uniformBindGroup g) ] /\
       filter Trace.texture_lifecycle (trace (world p))
       = [ EvCreateTexture t wd ht ]) /\
  (forall q, invocation q ->
     let g := globals q in
     let g' := globals (fst (frame q)) in
     existsb Trace.creation (frame_events q) = false /\
     verticesBuffer g' = verticesBuffer g /\
     uniformBuffer g' = uniformBuffer g /\
     renderPipeline g' = renderPipeline g /\
     uniformBindGroup g' = uniformBindGroup g /\
     is_Some (buffers (world (fst (frame q))) !! verticesBuffer g) /\
     is_Some (buffers (world (fst (frame q))) !! uniformBuffer g) /\
     exists t t',
       depthTexture g = Some t /\ depthTexture g' = Some t' /\
       filter Trace.texture_lifecycle (frame_events q)
       = if size_differs q
         then [ EvDestroyTexture t;
                EvCreateTexture t' (width (canvas (world (fst (frame q)))))
                  (height (canvas (world (fst (frame q))))) ]
         else []).
Proof.
  split.
  - intros p Hp.
    destruct (started_eq p Hp) as (env & cw & ch & t & _ & _ & _ & _ & ->).
    eexists _, _, _. repeat split.
  - intros q Hq.
    destruct (invocation_consistent q Hq) as [Hc _].
    destruct (consistent_frame_eq q Hc)
      as (t & tex & ub & Ht & Htex & _ & _ & _ & Hub & _ & Heq).
    pose proof (resize_needed_size_differs q Hc) as Hneed.
    cbv zeta. rewrite (frame_events_post q t ub Heq), Heq. cbn [fst snd].
    split.
    { rewrite existsb_app. unfold resize_trace.
      destruct (resize_needed _ _ _); reflexivity. }
    do 4 (split; [reflexivity|]).
    unfold frame_post. cbn [world globals buffers depthTexture canvas].
    split.
    { rewrite lookup_insert_ne
        by (intros E; symmetry in E; now apply Hc in E).
      rewrite (vertices_uploaded _ _ Hc). eexists; reflexivity. }
    split; [rewrite lookup_insert_eq; eexists; reflexivity|].
    exists t, (resized_depthTexture q t).
    split; [assumption|]. split; [reflexivity|].
    rewrite filter_app. unfold resize_trace, resized_depthTexture, render_trace.
    rewrite <- Hneed. destruct (resize_needed _ _ _); reflexivity.
Qed.

(** C4, amended: in every invocation of [frame] the depth texture is
    recreated if and only if a scaled client dimension differs from the
    canvas's and neither is zero; when it is, the old texture is destroyed
    first, and each canvas dimension is set to the scaled one converted to
    the [unsigned long] the canvas attribute holds: to the integer part of
    the scaled dimension when that is below 2^31 (the scaled dimension
    itself when it is a whole number, the number without its fraction
    when it has one), and to the attribute's default, 300 for the width
    and 150 for the height, when the integer part is from 2^31 to
    2^32 - 1; when the texture is not recreated, the depth texture,
    [canvas.width] and [canvas.height] are left as they are. *)
Theorem depth_texture_recreated_iff_size_differs q :
  invocation q ->
  exists t,
    depthTexture (globals q) = Some t /\
    snd (frame q) = inr tt /\
    existsb Trace.texture_lifecycle (frame_events q) = size_differs q /\
    (size_differs q = true ->
     exists old rest,
       frame_events q
       = EvDestroyTexture t
         :: EvCreateTexture (next_handle (world q))
              (width (canvas (world (fst (frame q)))))
              (height (canvas (world (fst (frame q)))))
         :: rest /\
       existsb Trace.texture_lifecycle rest = false /\
       next_handle (world q) <> t /\
       depthTexture (globals (fst (frame q))) = Some (next_handle (world q)) /\
       textures (world (fst (frame q))) !! t = Some old /\
       tex_destroyed old = true /\
       width (canvas (world (fst (frame q))))
       = Host.reflect_unsigned_long 300 (currentWidth q) /\
       height (canvas (world (fst (frame q))))
       = Host.reflect_unsigned_long 150 (currentHeight q) /\
       (forall n, 0 <= n < 2 ^ 31 -> currentWidth q = JS.of_Z n ->
                  width (canvas (world (fst (frame q)))) = n) /\
       (forall n, 0 <= n < 2 ^ 31 -> currentHeight q = JS.of_Z n ->
                  height (canvas (world (fst (frame q)))) = n) /\
       (0 <= JS.truncate (currentWidth q) < 2 ^ 31 ->
        width (canvas (world (fst (frame q)))) = JS.truncate (currentWidth q)) /\
       (0 <= JS.truncate (currentHeight q) < 2 ^ 31 ->
        height (canvas (world (fst (frame q)))) = JS.truncate (currentHeight q)) /\
       (2 ^ 31 <= JS.truncate (currentWidth q) < 2 ^ 32 ->
        width (canvas (world (fst (frame q)))) = 300) /\
       (2 ^ 31 <= JS.truncate (currentHeight q) < 2 ^ 32 ->
        height (canvas (world (fst (frame q)))) = 150)) /\
    (size_differs q = false ->
     depthTexture (globals (fst (frame q))) = Some t /\
     textures (world (fst (frame q))) = textures (world q) /\
     width (canvas (world (fst (frame q)))) = width (canvas (world q)) /\
     height (canvas (world (fst (frame q)))) = height (canvas (world q))).
Proof.
  intros Hq.
  destruct (invocation_consistent q Hq) as [Hc _].
  destruct (consistent_frame_eq q Hc)
    as (t & tex & ub & Ht & Htex & _ & _ & _ & Hub & _ & Heq).
  pose proof (resize_needed_size_differs q Hc) as Hneed.
  assert (Hlt : next_handle (world q) <> t).
  { intros E. pose proof (handles_fresh _ _ Hc t) as Hf.
    rewrite Hf in Htex by lia. discriminate. }
  exists t. rewrite (frame_events_post q t ub Heq), Heq. cbn [fst snd].
  split; [assumption|]. split; [reflexivity|]. split.
  { rewrite existsb_app, resize_trace_lifecycle, Hneed.
    unfold render_trace. cbn [existsb Trace.texture_lifecycle].
    now rewrite !orb_false_r. }
  unfold frame_post, resize_trace, render_trace, frame_descriptor,
    resized_depthTexture, resized_canvas.
  rewrite Hneed.
  split; intros Hd; rewrite Hd;
    cbn [globals world canvas textures depthTexture width height app].
  - eexists _, _. split; [reflexivity|]. split; [reflexivity|].
    split; [assumption|]. split; [reflexivity|]. split.
    { rewrite lookup_insert_ne by assumption.
      rewrite lookup_alter_eq, Htex. reflexivity. }
    split; [reflexivity|]. split; [reflexivity|]. split; [reflexivity|].
    split; [intros n Hn ->; now apply reflect_of_Z|].
    split; [intros n Hn ->; now apply reflect_of_Z|].
    split; [apply reflect_integer_part|].
    split; [apply reflect_integer_part|].
    split; apply reflect_default.
  - repeat split.
Qed.

End ProgramProofs.

(** ** Reaching an invocation *)

Section Reaching.

Context (cube : CubeModule) (lib : MatrixLibrary).

Lemma started_reachable p : started cube lib p -> reachable cube lib p.
Proof. intros Hp. exists p. split; [assumption | apply rtc_refl]. Qed.

Lemma reachable_host_update p cw ch t :
  reachable cube lib p -> client_ok cw -> client_ok ch ->
  reachable cube lib (host_update cw ch t p).
Proof.
  intros (p0 & Hstart & Hrun) Hcw Hch. exists p0. split; [assumption|].
  eapply rtc_r; [eassumption|]. now constructor.
Qed.

Lemma reachable_invocation p :
  reachable cube lib p -> invocation cube lib (dequeue [] p).
Proof.
  intros Hp. exists p, []. split; [assumption|]. split; [|reflexivity].
  now destruct (reachable_consistent cube lib p Hp).
Qed.

End Reaching.

(** ** The concrete runs *)

Lemma sample_started dpr cw ch :
  dpr_ok dpr -> client_ok cw -> client_ok ch ->
  started Sample.cube Sample.lib (Sample.started dpr cw ch).
Proof.
  intros Hdpr Hcw Hch. exists (Sample.env dpr), cw, ch, 0.
  do 3 (split; [assumption|]).
  unfold Sample.started. rewrite main_eq by reflexivity. reflexivity.
Qed.

Lemma one_ok : dpr_ok Sample.one.
Proof. split; reflexivity. Qed.

Lemma one_and_a_half_ok : dpr_ok Sample.one_and_a_half.
Proof. split; reflexivity. Qed.

Lemma client_ok_dec n : (0 <=? n) && (n <? 2 ^ 31) = true -> client_ok n.
Proof. unfold client_ok. rewrite andb_true_iff, Z.leb_le, Z.ltb_lt. tauto. Qed.

Lemma sample_plain_started :
  started Sample.cube Sample.lib (Sample.started Sample.one 300 150).
Proof.
  apply sample_started; [apply one_ok | | ]; now apply client_ok_dec.
Qed.

Lemma enlarged_invocation : invocation Sample.cube Sample.lib Sample.enlarged.
Proof.
  apply reachable_invocation, reachable_host_update;
    [apply started_reachable, sample_plain_started | | ]; now apply client_ok_dec.
Qed.

Lemma collapsed_invocation : invocation Sample.cube Sample.lib Sample.collapsed.
Proof.
  apply reachable_invocation, reachable_host_update;
    [apply started_reachable, sample_plain_started | | ]; now apply client_ok_dec.
Qed.

Lemma fractional_invocation : invocation Sample.cube Sample.lib Sample.fractional.
Proof.
  apply reachable_invocation, started_reachable, sample_started;
    [apply one_and_a_half_ok | | ]; now apply client_ok_dec.
Qed.

Lemma half_ok : dpr_ok Sample.half.
Proof. split; reflexivity. Qed.

Lemma squeezed_invocation : invocation Sample.cube Sample.lib Runs.squeezed.
Proof.
  apply reachable_invocation, reachable_host_update;
    [apply started_reachable, sample_started; [apply half_ok | | ] | | ];
    now apply client_ok_dec.
Qed.

Lemma oversized_invocation : invocation Sample.cube Sample.lib Runs.oversized.
Proof.
  apply reachable_invocation, started_reachable, sample_started;
    [apply one_and_a_half_ok | | ]; now apply client_ok_dec.
Qed.

(** The enlarged canvas: the frame destroys the depth texture of set-up
    (handle 3) and creates one of 400 by 300 (handle 6). *)
Example enlarged_frame_recreates :
  filter Trace.texture_lifecycle
    (frame_events Sample.cube Sample.lib Sample.enlarged)
  = [EvDestroyTexture 3%nat; EvCreateTexture 6%nat 400 300].
Proof. vm_compute. reflexivity. Qed.

(** The fractional canvas: the scaled width is 451.5, the canvas keeps
    451, and so the frame resizes although nothing was laid out anew. *)
Example fractional_frame_truncates :
  currentWidth Sample.fractional = JS.dyadic 903 (-1) /\
  width (canvas (world Sample.fractional)) = 451 /\
  width (canvas (world (fst (frame Sample.cube Sample.lib Sample.fractional)))) = 451 /\
  filter Trace.texture_lifecycle
    (frame_events Sample.cube Sample.lib Sample.fractional)
  = [EvDestroyTexture 3%nat; EvCreateTexture 6%nat 451 300].
Proof. vm_compute. repeat split. Qed.

(** The enlarged canvas: the scaled size is whole, and the canvas takes
    it as it is. *)
Example enlarged_frame_exact :
  currentWidth Sample.enlarged = JS.of_Z 400 /\
  currentHeight Sample.enlarged = JS.of_Z 300 /\
  canvas (world (fst (frame Sample.cube Sample.lib Sample.enlarged)))
  = {| clientWidth := 400; clientHeight := 300; width := 400; height := 300 |}.
Proof. vm_compute. repeat split. Qed.

(** The sub-pixel canvas: the scaled width 0.5 passes the test of line
    115, the canvas stores 0, and the new depth texture is 0 wide. *)
Example sub_pixel_frame_creates_empty_texture :
  invocation Sample.cube Sample.lib Sample.sub_pixel /\
  currentWidth Sample.sub_pixel = JS.dyadic 1 (-1) /\
  JS.is_zero (currentWidth Sample.sub_pixel) = false /\
  filter Trace.texture_lifecycle
    (frame_events Sample.cube Sample.lib Sample.sub_pixel)
  = [EvDestroyTexture 3%nat; EvCreateTexture 6%nat 0 50].
Proof.
  split.
  - apply reachable_invocation, started_reachable, sample_started;
      [split; reflexivity | | ]; now apply client_ok_dec.
  - vm_compute. repeat split.
Qed.

(** The squeezed canvas: set-up left a canvas of 150 by 75; the scaled
    width 0.5 is truthy, so the test of line 115 holds; the canvas stores
    0, and the frame replaces the depth texture of 150 by 75 by one of 0
    by 50. *)
Example squeezed_frame_creates_empty_texture :
  currentWidth Runs.squeezed = JS.dyadic 1 (-1) /\
  JS.ToBoolean (currentWidth Runs.squeezed) = true /\
  width (canvas (world Runs.squeezed)) = 150 /\
  height (canvas (world Runs.squeezed)) = 75 /\
  canvas (world (fst (frame Sample.cube Sample.lib Runs.squeezed)))
  = {| clientWidth := 1; clientHeight := 100; width := 0; height := 50 |} /\
  filter Trace.texture_lifecycle
    (frame_events Sample.cube Sample.lib Runs.squeezed)
  = [EvDestroyTexture 3%nat; EvCreateTexture 6%nat 0 50].
Proof. vm_compute. repeat split. Qed.

(** The oversized canvas: the scaled width 3221225470.5 has an integer
    part above 2^31 - 1, and the canvas takes the default width 300. *)
Example oversized_frame_stores_default :
  JS.truncate (currentWidth Runs.oversized) = 3221225470 /\
  canvas (world (fst (frame Sample.cube Sample.lib Runs.oversized)))
  = {| clientWidth := 2147483647; clientHeight := 200;
       width := 300; height := 300 |} /\
  filter Trace.texture_lifecycle
    (frame_events Sample.cube Sample.lib Runs.oversized)
  = [EvDestroyTexture 3%nat; EvCreateTexture 6%nat 300 300].
Proof. vm_compute. repeat split. Qed.

(** The enlarged canvas again: [aspect] goes from 2 to 4/3 and the
    projection matrix stays. *)
Example aspect_reassigned_projection_kept :
  let p' := fst (frame Sample.cube Sample.lib Sample.enlarged) in
  aspect (globals Sample.enlarged) = JS.of_Z 2 /\
  aspect (globals p') = JS.div (JS.of_Z 4) (JS.of_Z 3) /\
  projectionMatrix (globals p') = projectionMatrix (globals Sample.enlarged).
Proof. vm_compute. repeat split. Qed.

(** ** The theorems at the concrete runs *)

Local Abbreviation run := (frame Sample.cube Sample.lib).
Local Abbreviation events := (frame_events Sample.cube Sample.lib).
Local Abbreviation invoked := (invocation Sample.cube Sample.lib).

(** C1 at the enlarged canvas. *)
Lemma depth_attachment_matches_canvas_witness :
  invoked Sample.enlarged /\
  exists t tex pass,
    snd (run Sample.enlarged) = inr tt /\
    Trace.submissions (events Sample.enlarged)
      = [[ {| cb_label := "frame"; cb_passes := [pass] |} ]] /\
    pass_depth_view pass = ViewOfTexture t /\
    In (EvCreateView (ViewOfTexture t)) (events Sample.enlarged) /\
    depthTexture (globals (fst (run Sample.enlarged))) = Some t /\
    textures (world (fst (run Sample.enlarged))) !! t = Some tex /\
    tex_destroyed tex = false /\
    tex_width tex = width (canvas (world (fst (run Sample.enlarged)))) /\
    tex_height tex = height (canvas (world (fst (run Sample.enlarged)))).
Proof.
  split; [exact enlarged_invocation|].
  exact (depth_attachment_matches_canvas Sample.cube Sample.lib
           Sample.enlarged enlarged_invocation).
Defined.

(** C2 at the enlarged canvas. *)
Lemma frame_updates_matrix_then_draws_once_witness :
  invoked Sample.enlarged /\
  let m := transformationMatrix_of Sample.lib Sample.enlarged in
  exists before between cb ub,
    snd (run Sample.enlarged) = inr tt /\
    List.length m = 16%nat /\
    modelViewProjectionMatrix (globals (fst (run Sample.enlarged))) = m /\
    events Sample.enlarged
      = before
        ++ EvWriteBuffer (uniformBuffer (globals Sample.enlarged)) 0
             (TypedArray.buffer m)
        :: between ++ [EvSubmit [cb]; EvRequestAnimationFrame CbFrame] /\
    Trace.writes (events Sample.enlarged)
      = [(uniformBuffer (globals Sample.enlarged), 0, TypedArray.buffer m)] /\
    Trace.submissions (events Sample.enlarged) = [[cb]] /\
    Trace.draws cb = [cubeVertexCount Sample.cube] /\
    buffers (world (fst (run Sample.enlarged)))
      !! uniformBuffer (globals Sample.enlarged) = Some ub /\
    buf_bytes ub = TypedArray.buffer m.
Proof.
  split; [exact enlarged_invocation|].
  exact (frame_updates_matrix_then_draws_once Sample.cube Sample.lib
           Sample.enlarged enlarged_invocation).
Defined.

(** C10 at the enlarged canvas. *)
Lemma uniform_write_fills_buffer_witness :
  invoked Sample.enlarged /\
  let m := transformationMatrix_of Sample.lib Sample.enlarged in
  exists ub ub',
    uniformBufferSize = 64 /\
    buffers (world Sample.enlarged) !! uniformBuffer (globals Sample.enlarged)
      = Some ub /\
    buf_size ub = uniformBufferSize /\
    TypedArray.byteOffset m = 0 /\
    TypedArray.byteLength m = buf_size ub /\
    snd (run Sample.enlarged) = inr tt /\
    existsb Trace.validation_error (events Sample.enlarged) = false /\
    Trace.writes (events Sample.enlarged)
      = [(uniformBuffer (globals Sample.enlarged), 0, TypedArray.buffer m)] /\
    0 + Z.of_nat (List.length (TypedArray.buffer m)) = buf_size ub /\
    buffers (world (fst (run Sample.enlarged)))
      !! uniformBuffer (globals Sample.enlarged) = Some ub' /\
    buf_size ub' = buf_size ub /\
    buf_bytes ub' = TypedArray.buffer m.
Proof.
  split; [exact enlarged_invocation|].
  exact (uniform_write_fills_buffer Sample.cube Sample.lib
           Sample.enlarged enlarged_invocation).
Defined.

(** C5 on a browser without WebGPU, and on one with it. *)
Lemma missing_gpu_logged_not_handled_witness :
  let w := initial_world 300 150 0 in
  (navigator_gpu Sample.env_without_gpu = false /\
   main Sample.cube Sample.lib Sample.env_without_gpu w
   = (with_trace
        (trace w ++ [EvConsoleError "WebGPU is not supported in this browser."]) w,
      inl (TypeError "navigator.gpu is undefined"))) /\
  (navigator_gpu (Sample.env Sample.one) = true /\
   Trace.console_errors
     (trace (fst (main Sample.cube Sample.lib (Sample.env Sample.one) w)))
   = Trace.console_errors (trace w)) /\
  (capable Sample.env_without_gpu = false /\
   exists e, snd (main Sample.cube Sample.lib Sample.env_without_gpu w) = inl e).
Proof.
  intros w.
  split; [split; [reflexivity|]|split; (split; [reflexivity|])].
  - exact (proj1 (missing_gpu_logged_not_handled Sample.cube Sample.lib
                    Sample.env_without_gpu w) eq_refl).
  - exact (proj1 (proj2 (missing_gpu_logged_not_handled Sample.cube Sample.lib
                           (Sample.env Sample.one) w)) eq_refl).
  - exact (proj2 (proj2 (missing_gpu_logged_not_handled Sample.cube Sample.lib
                           Sample.env_without_gpu w)) eq_refl).
Defined.

(** The guard at the collapsed canvas. *)
Lemma zero_size_skips_resize_witness :
  invoked Sample.collapsed /\
  JS.is_zero (currentWidth Sample.collapsed) = true /\
  snd (run Sample.collapsed) = inr tt /\
  exists t,
    existsb Trace.texture_lifecycle (events Sample.collapsed) = false /\
    width (canvas (world (fst (run Sample.collapsed))))
    = width (canvas (world Sample.collapsed)) /\
    height (canvas (world (fst (run Sample.collapsed))))
    = height (canvas (world Sample.collapsed)) /\
    textures (world (fst (run Sample.collapsed)))
    = textures (world Sample.collapsed) /\
    depthTexture (globals Sample.collapsed) = Some t /\
    depthTexture (globals (fst (run Sample.collapsed))) = Some t /\
    depth_view (renderPassDescriptor (globals (fst (run Sample.collapsed))))
    = ViewOfTexture t.
Proof.
  split; [exact collapsed_invocation|]. split; [reflexivity|].
  destruct (zero_size_skips_resize Sample.cube Sample.lib Sample.collapsed
              collapsed_invocation) as [Hok Hskip].
  split; [exact Hok|]. exact (Hskip (or_introl eq_refl)).
Defined.

(** C7 at the plain start and at the enlarged canvas. *)
Lemma single_animation_callback_loop_witness :
  let p := Sample.started Sample.one 300 150 in
  (started Sample.cube Sample.lib p /\
   Trace.requests (trace (world p)) = [CbFrame] /\
   animation_callbacks (world p) = [CbFrame]) /\
  (invoked Sample.enlarged /\
   animation_callbacks (world Sample.enlarged) = [] /\
   snd (run Sample.enlarged) = inr tt /\
   Trace.requests (events Sample.enlarged) = [CbFrame] /\
   animation_callbacks (world (fst (run Sample.enlarged))) = [CbFrame]) /\
  (reachable Sample.cube Sample.lib p /\
   animation_callbacks (world p) = [CbFrame]).
Proof.
  intros p.
  destruct (single_animation_callback_loop Sample.cube Sample.lib)
    as (H1 & H2 & H3).
  split; [|split].
  - split; [exact sample_plain_started|]. exact (H1 p sample_plain_started).
  - split; [exact enlarged_invocation|].
    exact (H2 Sample.enlarged enlarged_invocation).
  - split; [exact (started_reachable _ _ p sample_plain_started)|].
    exact (H3 p (started_reachable _ _ p sample_plain_started)).
Defined.

(** C8 at the plain start and at the enlarged canvas. *)
Lemma vertex_buffer_written_once_witness :
  let p := Sample.started Sample.one 300 150 in
  let data := TypedArray.buffer (cubeVertexArray Sample.cube) in
  (started Sample.cube Sample.lib p /\
   filter (fun e => Trace.creates_buffer (verticesBuffer (globals p)) e
                    || Trace.touches_buffer (verticesBuffer (globals p)) e)
          (trace (world p))
   = [ EvCreateBuffer (verticesBuffer (globals p))
         (TypedArray.byteLength (cubeVertexArray Sample.cube))
         GPUBufferUsage.VERTEX true;
       EvMappedWrite (verticesBuffer (globals p)) data;
       EvUnmap (verticesBuffer (globals p)) ]) /\
  (reachable Sample.cube Sample.lib p /\
   buffers (world p) !! verticesBuffer (globals p)
   = Some {| buf_size := TypedArray.byteLength (cubeVertexArray Sample.cube);
             buf_usage := GPUBufferUsage.VERTEX;
             buf_mapped := false;
             buf_bytes := data |}) /\
  (invoked Sample.enlarged /\
   existsb (Trace.touches_buffer (verticesBuffer (globals Sample.enlarged)))
           (events Sample.enlarged) = false /\
   verticesBuffer (globals (fst (run Sample.enlarged)))
   = verticesBuffer (globals Sample.enlarged) /\
   buffers (world (fst (run Sample.enlarged)))
     !! verticesBuffer (globals Sample.enlarged)
   = buffers (world Sample.enlarged) !! verticesBuffer (globals Sample.enlarged)).
Proof.
  intros p data.
  destruct (vertex_buffer_written_once Sample.cube Sample.lib)
    as (H1 & H2 & H3).
  split; [|split].
  - split; [exact sample_plain_started|]. exact (H1 p sample_plain_started).
  - split; [exact (started_reachable _ _ p sample_plain_started)|].
    exact (H2 p (started_reachable _ _ p sample_plain_started)).
  - split; [exact enlarged_invocation|].
    exact (H3 Sample.enlarged enlarged_invocation).
Defined.

(** C9 from the plain start to the enlarged canvas. *)
Lemma projection_fixed_at_startup_witness :
  let p0 := Sample.started Sample.one 300 150 in
  let p := host_update 400 300 16 p0 in
  started Sample.cube Sample.lib p0 /\
  rtc (step Sample.cube Sample.lib) p0 p /\
  animation_callbacks (world p) = [CbFrame] /\
  aspect (globals p0)
  = JS.div (JS.of_Z (width (canvas (world p0))))
      (JS.of_Z (height (canvas (world p0)))) /\
  projectionMatrix (globals p0)
  = TypedArray.store (TypedArray.create 16)
      (mat4_perspective Sample.lib
         (JS.div (JS.mul (JS.of_Z 2) JS.Math_PI) (JS.of_Z 5))
         (aspect (globals p0)) (JS.of_Z 1) (JS.of_Z 100)) /\
  projectionMatrix (globals p) = projectionMatrix (globals p0) /\
  projectionMatrix (globals (fst (run (dequeue [] p))))
  = projectionMatrix (globals p0) /\
  modelViewProjectionMatrix (globals (fst (run (dequeue [] p))))
  = TypedArray.store (modelViewProjectionMatrix (globals (dequeue [] p)))
      (mat4_multiply Sample.lib (projectionMatrix (globals p0))
         (viewMatrix_at Sample.lib (clock (world (dequeue [] p))))).
Proof.
  intros p0 p.
  assert (Hrun : rtc (step Sample.cube Sample.lib) p0 p).
  { apply rtc_once. constructor; now apply client_ok_dec. }
  assert (Hcbs : animation_callbacks (world p) = [CbFrame]) by reflexivity.
  destruct (projection_fixed_at_startup Sample.cube Sample.lib p0 p
              sample_plain_started Hrun) as (H0 & H1 & H2 & H3).
  split; [exact sample_plain_started|]. split; [exact Hrun|].
  split; [exact Hcbs|]. split; [exact H0|]. split; [exact H1|].
  split; [exact H2|]. exact (H3 [] Hcbs).
Defined.

(** C3 as the specification words it fails at the enlarged canvas: the
    frame destroys a texture and creates one. *)
Lemma depth_texture_is_recreated :
  ~ create_once_use_forever Sample.cube Sample.lib.
Proof.
  intros H. specialize (H Sample.enlarged enlarged_invocation).
  vm_compute in H. discriminate.
Qed.

(** C3, amended, at the plain start and at the enlarged canvas. *)
Lemma buffers_pipeline_bind_group_created_once_witness :
  let p := Sample.started Sample.one 300 150 in
  let q := Sample.enlarged in
  (started Sample.cube Sample.lib p /\
   filter Trace.texture_lifecycle (trace (world p)) = [EvCreateTexture 3%nat 300 150] /\
   List.length (filter Trace.creation (trace (world p))) = 5%nat) /\
  (invoked q /\
   existsb Trace.creation (events q) = false /\
   verticesBuffer (globals (fst (run q))) = verticesBuffer (globals q) /\
   uniformBuffer (globals (fst (run q))) = uniformBuffer (globals q) /\
   renderPipeline (globals (fst (run q))) = renderPipeline (globals q) /\
   uniformBindGroup (globals (fst (run q))) = uniformBindGroup (globals q) /\
   is_Some (buffers (world (fst (run q))) !! verticesBuffer (globals q)) /\
   is_Some (buffers (world (fst (run q))) !! uniformBuffer (globals q)) /\
   exists t t',
     depthTexture (globals q) = Some t /\
     depthTexture (globals (fst (run q))) = Some t' /\
     filter Trace.texture_lifecycle (events q)
     = if size_differs q
       then [ EvDestroyTexture t;
              EvCreateTexture t' (width (canvas (world (fst (run q)))))
                (height (canvas (world (fst (run q))))) ]
       else []).
Proof.
  intros p q.
  destruct (buffers_pipeline_bind_group_created_once Sample.cube Sample.lib)
    as (H1 & H2).
  split.
  - split; [exact sample_plain_started|].
    destruct (H1 p sample_plain_started) as (t & wd & ht & _ & Hc & _).
    split; [reflexivity|]. now rewrite Hc.
  - split; [exact enlarged_invocation|].
    exact (H2 q enlarged_invocation).
Defined.

(** C4 as the specification words it fails at the fractional canvas: the
    frame resizes, and afterwards [canvas.width] is 451, not 451.5. *)
Lemma canvas_width_loses_fraction :
  ~ canvas_set_to_new_size Sample.cube Sample.lib.
Proof.
  intros H.
  destruct (H Sample.fractional fractional_invocation) as [Hw _].
  { vm_compute. reflexivity. }
  vm_compute in Hw. discriminate.
Qed.

(** C4, amended, at the fractional canvas (which resizes, and stores the
    integer part 451 of 451.5), at the collapsed one (which does not) and
    at the oversized one (which resizes, and stores the default). *)
Lemma depth_texture_recreated_iff_size_differs_witness :
  (invoked Sample.fractional /\
   size_differs Sample.fractional = true /\
   existsb Trace.texture_lifecycle (events Sample.fractional) = true /\
   width (canvas (world (fst (run Sample.fractional))))
   = Host.reflect_unsigned_long 300 (currentWidth Sample.fractional) /\
   JS.truncate (currentWidth Sample.fractional) = 451 /\
   width (canvas (world (fst (run Sample.fractional))))
   = JS.truncate (currentWidth Sample.fractional)) /\
  (invoked Sample.collapsed /\
   size_differs Sample.collapsed = false /\
   existsb Trace.texture_lifecycle (events Sample.collapsed) = false /\
   textures (world (fst (run Sample.collapsed)))
   = textures (world Sample.collapsed)) /\
  (invoked Runs.oversized /\
   size_differs Runs.oversized = true /\
   JS.truncate (currentWidth Runs.oversized) = 3221225470 /\
   width (canvas (world (fst (run Runs.oversized)))) = 300).
Proof.
  split; [|split].
  - destruct (depth_texture_recreated_iff_size_differs Sample.cube Sample.lib
                Sample.fractional fractional_invocation)
      as (t & _ & _ & Hiff & Hyes & _).
    destruct (Hyes eq_refl)
      as (old & rest & _ & _ & _ & _ & _ & _ & Hw & _ & _ & _ & Hint & _).
    split; [exact fractional_invocation|]. split; [reflexivity|].
    split; [exact Hiff|]. split; [exact Hw|].
    split; [vm_compute; reflexivity|].
    apply Hint. vm_compute. split; [intros H; discriminate H | reflexivity].
  - destruct (depth_texture_recreated_iff_size_differs Sample.cube Sample.lib
                Sample.collapsed collapsed_invocation)
      as (t & _ & _ & Hiff & _ & Hno).
    destruct (Hno eq_refl) as (_ & Hts & _).
    split; [exact collapsed_invocation|]. split; [reflexivity|].
    split; [exact Hiff | exact Hts].
  - assert (Hd : size_differs Runs.oversized = true)
      by (vm_compute; reflexivity).
    destruct (depth_texture_recreated_iff_size_differs Sample.cube Sample.lib
                Runs.oversized oversized_invocation)
      as (t & _ & _ & _ & Hyes & _).
    destruct (Hyes Hd)
      as (old & rest & _ & _ & _ & _ & _ & _ & _ & _ & _ & _ & _ & _ & Hdef & _).
    split; [exact oversized_invocation|]. split; [exact Hd|].
    split; [vm_compute; reflexivity|].
    apply Hdef. vm_compute. split; [intros H; discriminate H | reflexivity].
Defined.

(** * More of the program *)

(** ** Numbers: what the canvas keeps *)

Lemma reflect_range d x :
  0 <= d <= 2147483647 ->
  0 <= Host.reflect_unsigned_long d x <= 2147483647.
Proof.
  intros Hd. unfold Host.reflect_unsigned_long, JS.ToUint32.
  pose proof (Z.mod_pos_bound (JS.truncate x) (2 ^ 32) eq_refl) as Hm.
  destruct (Z.leb_spec (JS.truncate x mod 2 ^ 32) 2147483647); lia.
Qed.

(** A positive integer below 2^53 is a finite positive double. *)
Lemma of_Z_finite n :
  0 < n < 2 ^ 53 -> exists m e, JS.of_Z n = S754_finite false m e.
Proof.
  intros Hn. pose proof (truncate_of_Z n ltac:(lia)) as Ht.
  destruct (JS.of_Z n) as [s|s| |s m e]; simpl in Ht; try lia.
  destruct s; [|eauto].
  simpl in Ht. pose proof (Z.shiftl_nonneg (Z.pos m) e) as [_ H].
  specialize (H ltac:(lia)). lia.
Qed.

(** Only the double of an integer is strictly equal to it. *)
Lemma strict_eq_of_Z x n :
  0 < n < 2 ^ 53 -> JS.strict_eq x (JS.of_Z n) = true -> x = JS.of_Z n.
Proof.
  intros Hn. destruct (of_Z_finite n Hn) as (m & e & ->).
  unfold JS.strict_eq, SFeqb, SFcompare.
  destruct x as [s|s| |[|] m' e']; try discriminate;
    try (destruct s; discriminate).
  destruct (Z.compare_spec e' e) as [->| |]; try discriminate.
  intros H. destruct (Pos.compare_cont Eq m' m) eqn:E; try discriminate.
  apply Pos.compare_eq in E. now subst.
Qed.

Lemma strict_eq_refl x : JS.is_nan x = false -> JS.strict_eq x x = true.
Proof.
  unfold JS.strict_eq, SFeqb, SFcompare.
  destruct x as [s|[|]| |[|] m e]; try discriminate; try reflexivity;
    intros _; now rewrite Z.compare_refl, Pos.compare_cont_refl.
Qed.

(** A number strictly equal to an integer the attribute can hold is
    stored as that integer. *)
Lemma reflect_strict_eq d x n :
  0 <= n <= 2147483647 ->
  JS.strict_eq x (JS.of_Z n) = true -> Host.reflect_unsigned_long d x = n.
Proof.
  intros Hn Heq. destruct (Z.eq_dec n 0) as [->|Hnz].
  - destruct x as [s|s| |s m e]; try reflexivity.
    destruct s; cbv in Heq; discriminate.
  - rewrite (strict_eq_of_Z x n) by (assumption || lia).
    apply reflect_of_Z. lia.
Qed.

(** Hence a number the canvas holds already is kept. *)
Lemma kept_strict_eq d x n :
  0 <= n <= 2147483647 -> JS.strict_eq x (JS.of_Z n) = true -> kept d x = true.
Proof.
  intros Hn Heq. unfold kept. now rewrite (reflect_strict_eq d x n).
Qed.

Lemma kept_of_Z d n : 0 <= n <= 2147483647 -> kept d (JS.of_Z n) = true.
Proof.
  intros Hn. apply kept_strict_eq with n; [assumption|].
  apply strict_eq_refl, of_Z_not_nan.
Qed.


(** ** What a run keeps tidy *)

Section RunProofs.

Context (cube : CubeModule) (lib : MatrixLibrary).

Local Abbreviation main := (main cube lib).
Local Abbreviation frame := (frame cube lib).
Local Abbreviation main_post := (main_post cube lib).
Local Abbreviation frame_post := (frame_post cube lib).
Local Abbreviation frame_events := (frame_events cube lib).
Local Abbreviation started := (started cube lib).
Local Abbreviation step := (step cube lib).
Local Abbreviation reachable := (reachable cube lib).
Local Abbreviation invocation := (invocation cube lib).
Local Abbreviation consistent := (consistent cube).
Local Abbreviation run_of := (run_of cube lib).
Local Abbreviation render_trace := (render_trace cube lib).

Lemma tidy_main_post env cw ch t : tidy (main_post env cw ch t).
Proof.
  unfold main_post. constructor;
    cbn [globals world canvas width height textures depthTexture aspect
         renderPassDescriptor depth_view].
  - split; apply reflect_range; lia.
  - intros h tex Hh _. destruct (decide (h = 3%nat)) as [->|Hne]; [reflexivity|].
    rewrite lookup_insert_ne, lookup_empty in Hh by congruence. discriminate.
  - reflexivity.
  - eexists. split; reflexivity.
Qed.

Lemma tidy_host_update p cw ch t : tidy p -> tidy (host_update cw ch t p).
Proof.
  intros [Hr Hl Ha Hd]. destruct p as [g [c k f ts bs n cbs tr]].
  constructor; assumption.
Qed.

Lemma tidy_dequeue p rest : tidy p -> tidy (dequeue rest p).
Proof.
  intros [Hr Hl Ha Hd]. destruct p as [g [c k f ts bs n cbs tr]].
  constructor; assumption.
Qed.

Lemma tidy_frame_post p t tex ub :
  consistent p -> tidy p ->
  depthTexture (globals p) = Some t ->
  textures (world p) !! t = Some tex ->
  tidy (frame_post p t ub).
Proof.
  intros Hc [Hr Hl Ha Hd] Ht Htex.
  assert (Hlt : (t < next_handle (world p))%nat).
  { destruct (Nat.lt_ge_cases t (next_handle (world p))) as [|Hge]; [assumption|].
    rewrite (handles_fresh _ _ Hc t Hge) in Htex. discriminate. }
  unfold frame_post, frame_descriptor, resized_depthTexture, resized_canvas.
  destruct (resize_needed (currentWidth p) (currentHeight p) p);
    constructor;
    cbn [globals world canvas width height textures depthTexture aspect
         renderPassDescriptor depth_view]; try assumption.
  - split; apply reflect_range; lia.
  - intros h tex' Hh Hlive.
    destruct (decide (h = next_handle (world p))) as [->|Hne]; [reflexivity|].
    rewrite lookup_insert_ne in Hh by congruence.
    destruct (decide (h = t)) as [->|Hne'].
    + rewrite lookup_alter_eq, Htex in Hh. injection Hh as <-. discriminate.
    + rewrite lookup_alter_ne in Hh by congruence.
      pose proof (Hl h tex' Hh Hlive) as E. congruence.
  - reflexivity.
  - eexists. split; reflexivity.
  - intros h tex' Hh Hlive. rewrite <- Ht. now apply Hl with tex'.
  - eexists. split; reflexivity.
Qed.

(** Between two host tasks the program is tidy. *)
Lemma reachable_tidy p : reachable p -> tidy p.
Proof.
  intros (p0 & Hstart & Hrun).
  assert (H : consistent p /\ tidy p); [|tauto].
  revert p Hrun.
  apply (rtc_ind_r (fun p => consistent p /\ tidy p)).
  - destruct (started_eq cube lib p0 Hstart)
      as (env & cw & ch & t & _ & [Hfin _] & _ & _ & ->).
    split; [now apply consistent_main_post | apply tidy_main_post].
  - intros q r _ Hstep [Hq Htq].
    destruct Hstep as [q cw ch t Hcw Hch | q rest Hpending].
    + split; [now apply consistent_host_update | now apply tidy_host_update].
    + pose proof (consistent_dequeue cube q rest Hq) as Hdq.
      pose proof (tidy_dequeue q rest Htq) as Htdq.
      destruct (consistent_frame_eq cube lib _ Hdq)
        as (t & tex & ub & Ht & Htex & _ & _ & _ & Hub & _ & Heq).
      rewrite Heq. split.
      * now apply consistent_frame_post with (tex := tex).
      * now apply tidy_frame_post with (tex := tex).
Qed.

Lemma invocation_tidy q : invocation q -> tidy q.
Proof.
  intros (p & rest & Hp & _ & ->). apply tidy_dequeue. now apply reachable_tidy.
Qed.

Lemma frame_reachable q :
  invocation q -> reachable (fst (frame q)).
Proof.
  intros (p & rest & (p0 & Hstart & Hrun) & Hpending & ->).
  exists p0. split; [assumption|].
  eapply rtc_r; [eassumption|]. now constructor.
Qed.

Lemma next_invocation_invocation t p :
  reachable p ->
  client_ok (clientWidth (canvas (world p))) ->
  client_ok (clientHeight (canvas (world p))) ->
  invocation (next_invocation t p).
Proof.
  intros Hp Hcw Hch. unfold next_invocation.
  now apply reachable_invocation, reachable_host_update.
Qed.

Lemma reachable_client_ok p :
  reachable p ->
  client_ok (clientWidth (canvas (world p))) /\
  client_ok (clientHeight (canvas (world p))).
Proof.
  intros (p0 & Hstart & Hrun).
  assert (H : consistent p /\
              client_ok (clientWidth (canvas (world p))) /\
              client_ok (clientHeight (canvas (world p)))); [|tauto].
  revert p Hrun.
  apply (rtc_ind_r (fun p => consistent p /\
                             client_ok (clientWidth (canvas (world p))) /\
                             client_ok (clientHeight (canvas (world p))))).
  - destruct (started_eq cube lib p0 Hstart)
      as (env & cw & ch & t & _ & [Hfin _] & Hcw & Hch & ->).
    split; [now apply consistent_main_post | split; assumption].
  - intros q r _ Hstep [Hq Hcl].
    destruct Hstep as [q cw ch t Hcw Hch | q rest Hpending].
    + split; [now apply consistent_host_update|].
      destruct q as [g [c k f ts bs n cbs tr]]. split; assumption.
    + pose proof (consistent_dequeue cube q rest Hq) as Hdq.
      destruct (consistent_frame_eq cube lib _ Hdq)
        as (t & tex & ub & Ht & Htex & _ & _ & _ & Hub & _ & Heq).
      rewrite Heq. split; [now apply consistent_frame_post with (tex := tex)|].
      unfold frame_post, resized_canvas. cbn [world canvas].
      destruct q as [g [c k f ts bs n cbs tr]].
      destruct (resize_needed _ _ _); exact Hcl.
Qed.

(** What a frame does to its textures is decided by [size_differs]. *)
Lemma frame_lifecycle q :
  invocation q ->
  existsb Trace.texture_lifecycle (frame_events q) = size_differs q.
Proof.
  intros Hq.
  destruct (invocation_consistent cube lib q Hq) as [Hc _].
  destruct (consistent_frame_eq cube lib q Hc)
    as (t & tex & ub & _ & _ & _ & _ & _ & _ & _ & Heq).
  rewrite (frame_events_post cube lib q t ub Heq).
  rewrite existsb_app, resize_trace_lifecycle.
  rewrite (resize_needed_size_differs cube q Hc).
  unfold render_trace. cbn [existsb Trace.texture_lifecycle].
  now rewrite !orb_false_r.
Qed.

(** The canvas a frame leaves behind. *)
Lemma frame_canvas q :
  invocation q ->
  canvas (world (fst (frame q))) = resized_canvas q /\
  devicePixelRatio (globals (fst (frame q))) = devicePixelRatio (globals q) /\
  resize_needed (currentWidth q) (currentHeight q) q = size_differs q.
Proof.
  intros Hq.
  destruct (invocation_consistent cube lib q Hq) as [Hc _].
  destruct (consistent_frame_eq cube lib q Hc)
    as (t & tex & ub & _ & _ & _ & _ & _ & _ & _ & Heq).
  rewrite Heq. repeat split. now apply (resize_needed_size_differs cube).
Qed.

(** In any invocation, a canvas dimension that equals the scaled one is
    one the canvas keeps. *)
Lemma size_same_kept q :
  invocation q ->
  (JS.strict_eq (currentWidth q) (JS.of_Z (width (canvas (world q)))) = true ->
   kept 300 (currentWidth q) = true) /\
  (JS.strict_eq (currentHeight q) (JS.of_Z (height (canvas (world q)))) = true ->
   kept 150 (currentHeight q) = true).
Proof.
  intros Hq. destruct (invocation_tidy q Hq) as [[Hw Hh] _ _ _].
  split; intros H.
  - now apply kept_strict_eq with (width (canvas (world q))).
  - now apply kept_strict_eq with (height (canvas (world q))).
Qed.

(** A number that is not zero and that the canvas stores as 0 is one the
    canvas does not keep. *)
Lemma stored_as_zero_unkept d x :
  JS.is_zero x = false -> Host.reflect_unsigned_long d x = 0 ->
  kept d x = false.
Proof.
  intros Hz H0. unfold kept. rewrite H0.
  destruct x as [s|[|]| |[|] m e]; try discriminate; reflexivity.
Qed.

(** C6: the guard of line 115 tests the scaled client size as a Number,
    before the canvas converts it.  In every invocation of [frame] in
    which neither scaled dimension is zero and the canvas stores one of
    them as 0 (it is below 1), the frame returns normally, takes the
    resize branch, destroys the depth texture and creates a zero-sized
    one, which is the depth texture from then on and the one attached in
    this frame's pass. *)
Theorem sub_pixel_size_creates_empty_depth_texture q :
  invocation q ->
  JS.is_zero (currentWidth q) = false ->
  JS.is_zero (currentHeight q) = false ->
  Host.reflect_unsigned_long 300 (currentWidth q) = 0 \/
  Host.reflect_unsigned_long 150 (currentHeight q) = 0 ->
  exists t tex rest pass,
    snd (frame q) = inr tt /\
    resize_needed (currentWidth q) (currentHeight q) q = true /\
    depthTexture (globals q) = Some t /\
    frame_events q
    = EvDestroyTexture t
      :: EvCreateTexture (next_handle (world q)) (tex_width tex) (tex_height tex)
      :: rest /\
    depthTexture (globals (fst (frame q))) = Some (next_handle (world q)) /\
    textures (world (fst (frame q))) !! next_handle (world q) = Some tex /\
    tex_destroyed tex = false /\
    (tex_width tex = 0 \/ tex_height tex = 0) /\
    Trace.submissions (frame_events q)
    = [[ {| cb_label := "frame"; cb_passes := [pass] |} ]] /\
    pass_depth_view pass = ViewOfTexture (next_handle (world q)).
Proof.
  intros Hq Hzw Hzh Hstored.
  destruct (invocation_consistent cube lib q Hq) as [Hc _].
  destruct (consistent_frame_eq cube lib q Hc)
    as (t & tex & ub & Ht & Htex & _ & _ & _ & Hub & _ & Heq).
  destruct (size_same_kept q Hq) as [Hkw Hkh].
  assert (Hneed : resize_needed (currentWidth q) (currentHeight q) q = true).
  { rewrite (resize_needed_size_differs cube q Hc).
    unfold size_differs. rewrite Hzw, Hzh. cbn [negb]. rewrite !andb_true_r.
    apply orb_true_iff.
    destruct Hstored as [H0|H0]; [left|right]; apply negb_true_iff.
    - destruct (JS.strict_eq (currentWidth q) _) eqn:E; [|reflexivity].
      rewrite (stored_as_zero_unkept 300 _ Hzw H0) in Hkw.
      now specialize (Hkw eq_refl).
    - destruct (JS.strict_eq (currentHeight q) _) eqn:E; [|reflexivity].
      rewrite (stored_as_zero_unkept 150 _ Hzh H0) in Hkh.
      now specialize (Hkh eq_refl). }
  exists t. rewrite (frame_events_post cube lib q t ub Heq), Heq. cbn [fst snd].
  unfold frame_post, resize_trace, render_trace, frame_descriptor,
    frame_commands, resized_depthTexture, resized_canvas.
  rewrite Hneed.
  cbn [globals world canvas textures depthTexture width height app
       Trace.submissions flat_map].
  exists {| tex_width := Host.reflect_unsigned_long 300 (currentWidth q);
            tex_height := Host.reflect_unsigned_long 150 (currentHeight q);
            tex_format := depthFormat;
            tex_usage := GPUTextureUsage.RENDER_ATTACHMENT;
            tex_destroyed := false |}.
  cbn [tex_width tex_height tex_destroyed].
  eexists _, _. split; [reflexivity|]. split; [reflexivity|].
  split; [assumption|]. split; [reflexivity|]. split; [reflexivity|].
  split; [apply lookup_insert_eq|]. split; [reflexivity|].
  split; [exact Hstored|]. split; reflexivity.
Qed.

(** X1: an invocation of [frame] in which a scaled client dimension is one
    the canvas does not keep (it has a fraction, or is above 2^31 - 1),
    and neither is zero, destroys and recreates the depth texture: at such
    a size every frame does, layout change or not. *)
Theorem unkept_size_resizes_every_frame q :
  invocation q ->
  kept 300 (currentWidth q) = false \/ kept 150 (currentHeight q) = false ->
  JS.is_zero (currentWidth q) = false ->
  JS.is_zero (currentHeight q) = false ->
  size_differs q = true /\
  existsb Trace.texture_lifecycle (frame_events q) = true.
Proof.
  intros Hq Hunkept Hzw Hzh.
  destruct (size_same_kept q Hq) as [Hkw Hkh].
  assert (Hd : size_differs q = true).
  { unfold size_differs. rewrite Hzw, Hzh. cbn [negb]. rewrite !andb_true_r.
    apply orb_true_iff.
    destruct Hunkept as [Hk|Hk]; [left|right]; apply negb_true_iff.
    - destruct (JS.strict_eq (currentWidth q) _) eqn:E; [|reflexivity].
      rewrite Hkw in Hk by reflexivity. discriminate.
    - destruct (JS.strict_eq (currentHeight q) _) eqn:E; [|reflexivity].
      rewrite Hkh in Hk by reflexivity. discriminate. }
  split; [assumption|]. now rewrite frame_lifecycle.
Qed.

(** X2: when the host does nothing but let time pass, the frame after a
    frame recreates the depth texture if and only if a scaled client
    dimension is one the canvas does not keep and neither is zero.  So
    after one frame at a whole size a resize is settled, and at a
    fractional size it never is. *)
Theorem next_frame_resizes_iff_unkept q t :
  invocation q ->
  invocation (next_invocation t (fst (frame q))) /\
  existsb Trace.texture_lifecycle
    (frame_events (next_invocation t (fst (frame q))))
  = (negb (kept 300 (currentWidth q)) || negb (kept 150 (currentHeight q)))
    && negb (JS.is_zero (currentWidth q))
    && negb (JS.is_zero (currentHeight q)).
Proof.
  intros Hq.
  pose proof (frame_reachable q Hq) as Hr.
  destruct (reachable_client_ok _ Hr) as [Hcw Hch].
  pose proof (next_invocation_invocation t _ Hr Hcw Hch) as Hq'.
  split; [assumption|].
  rewrite (frame_lifecycle _ Hq').
  destruct (frame_canvas q Hq) as (Hcv & Hdpr & Hneed).
  destruct (size_same_kept q Hq) as [Hkw Hkh].
  unfold size_differs, next_invocation, currentWidth, currentHeight.
  destruct (fst (frame q)) as [g' [c' k' f' ts' bs' n' cbs' tr']].
  cbn [world globals canvas clientWidth clientHeight width height
       devicePixelRatio host_update dequeue with_clock with_canvas
       with_animation_callbacks] in *.
  subst c'. rewrite Hdpr. unfold resized_canvas. rewrite Hneed.
  fold (currentWidth q) (currentHeight q).
  destruct (size_differs q) eqn:Hd;
    cbn [clientWidth clientHeight width height];
    fold (currentWidth q) (currentHeight q).
  - reflexivity.
  - unfold size_differs in Hd.
    destruct (JS.is_zero (currentWidth q)); [now rewrite !andb_false_r|].
    destruct (JS.is_zero (currentHeight q)); [now rewrite !andb_false_r|].
    cbn [negb] in *. rewrite !andb_true_r in *.
    apply orb_false_iff in Hd. destruct Hd as [Hw Hh].
    apply negb_false_iff in Hw, Hh.
    now rewrite Hw, Hh, (Hkw Hw), (Hkh Hh).
Qed.

(** X3: set-up sizes the canvas the way a resizing frame does, so the
    first frame, when the layout has not changed since set-up, recreates
    the depth texture if and only if a scaled client dimension is one the
    canvas does not keep and neither is zero. *)
Theorem first_frame_resizes_iff_unkept p t :
  started p ->
  let q := next_invocation t p in
  invocation q /\
  existsb Trace.texture_lifecycle (frame_events q)
  = (negb (kept 300 (currentWidth q)) || negb (kept 150 (currentHeight q)))
    && negb (JS.is_zero (currentWidth q))
    && negb (JS.is_zero (currentHeight q)).
Proof.
  intros Hp q.
  pose proof (started_reachable cube lib p Hp) as Hr.
  destruct (reachable_client_ok _ Hr) as [Hcw Hch].
  pose proof (next_invocation_invocation t _ Hr Hcw Hch) as Hq.
  split; [assumption|]. subst q.
  rewrite (frame_lifecycle _ Hq).
  destruct (started_eq cube lib p Hp) as (env & cw & ch & t0 & _ & _ & _ & _ & ->).
  reflexivity.
Qed.

(** X4: between two host tasks exactly one texture of the device is
    alive: the current depth texture, which has the canvas's size; every
    other texture the program ever created has been destroyed. *)
Theorem one_live_depth_texture p :
  reachable p ->
  exists t tex,
    depthTexture (globals p) = Some t /\
    textures (world p) !! t = Some tex /\
    tex_destroyed tex = false /\
    tex_width tex = width (canvas (world p)) /\
    tex_height tex = height (canvas (world p)) /\
    forall (h : handle) tex',
      textures (world p) !! h = Some tex' -> h <> t -> tex_destroyed tex' = true.
Proof.
  intros Hp.
  destruct (reachable_consistent cube lib p Hp) as [Hc _].
  destruct (depth_matches _ _ Hc) as (t & tex & Ht & Htex & Hw & Hh & Hd).
  pose proof (one_live_texture _ (reachable_tidy p Hp)) as Hl.
  exists t, tex. repeat (split; [assumption|]).
  intros h tex' Hh' Hne. destruct (tex_destroyed tex') eqn:E; [reflexivity|].
  pose proof (Hl h tex' Hh' E) as E'. congruence.
Qed.

(** X5: between two host tasks [aspect] is the quotient of the canvas's
    width and height as they are stored. *)
Theorem aspect_tracks_canvas p :
  reachable p ->
  aspect (globals p)
  = JS.div (JS.of_Z (width (canvas (world p))))
      (JS.of_Z (height (canvas (world p)))).
Proof. intros Hp. apply aspect_of_canvas. now apply reachable_tidy. Qed.

(** X6: between two host tasks the depth-stencil attachment of
    [renderPassDescriptor] is a view of the current depth texture, never
    of a destroyed one. *)
Theorem descriptor_views_current_depth_texture p :
  reachable p ->
  exists t tex,
    depth_view (renderPassDescriptor (globals p)) = ViewOfTexture t /\
    depthTexture (globals p) = Some t /\
    textures (world p) !! t = Some tex /\
    tex_destroyed tex = false.
Proof.
  intros Hp.
  destruct (reachable_consistent cube lib p Hp) as [Hc _].
  destruct (depth_matches _ _ Hc) as (t & tex & Ht & Htex & _ & _ & Hd).
  destruct (descriptor_of_depthTexture _ (reachable_tidy p Hp))
    as (t' & Ht' & Hv).
  exists t, tex. split; [congruence|]. repeat split; assumption.
Qed.

(** X7: in every frame the colour attachment is a view of the canvas's
    current texture, taken after the resize, and the depth texture has
    the same width and height as that texture. *)
Theorem attachments_have_one_size q :
  invocation q ->
  exists w h t tex pass,
    Trace.submissions (frame_events q)
      = [[ {| cb_label := "frame"; cb_passes := [pass] |} ]] /\
    pass_color_view pass = Some (ViewOfCanvas w h) /\
    pass_depth_view pass = ViewOfTexture t /\
    textures (world (fst (frame q))) !! t = Some tex /\
    tex_width tex = w /\ tex_height tex = h /\
    w = width (canvas (world (fst (frame q)))) /\
    h = height (canvas (world (fst (frame q)))).
Proof.
  intros Hq.
  destruct (invocation_consistent cube lib q Hq) as [Hc _].
  destruct (consistent_frame_eq cube lib q Hc)
    as (t & tex & ub & Ht & Htex & _ & _ & _ & Hub & _ & Heq).
  pose proof (consistent_frame_post cube lib q t tex ub Hc Ht Htex Hub) as Hpost.
  destruct (depth_matches _ _ Hpost) as (t' & tex' & Ht' & Htex' & Hw' & Hh' & _).
  rewrite (frame_events_post cube lib q t ub Heq), Heq. cbn [fst].
  unfold frame_post in Ht'. cbn [globals depthTexture] in Ht'.
  injection Ht' as <-.
  eexists _, _, (resized_depthTexture q t), tex', _.
  split.
  { unfold Trace.submissions. rewrite flat_map_app.
    unfold resize_trace. destruct (resize_needed _ _ _); reflexivity. }
  split; [reflexivity|]. split; [reflexivity|]. split; [exact Htex'|].
  split; [exact Hw'|]. split; [exact Hh'|]. split; reflexivity.
Qed.

(** ** Counting over a run *)

Lemma run_of_rtc k p0 p : run_of k p0 p -> rtc step p0 p.
Proof.
  induction 1 as [p | k p0 p cw ch t _ IH Hcw Hch | k p0 p rest _ IH Hpending].
  - apply rtc_refl.
  - eapply rtc_r; [exact IH|]. now constructor.
  - eapply rtc_r; [exact IH|]. now constructor.
Qed.

Lemma submissions_app l1 l2 :
  Trace.submissions (l1 ++ l2) = Trace.submissions l1 ++ Trace.submissions l2.
Proof. apply flat_map_app. Qed.

Lemma writes_app l1 l2 :
  Trace.writes (l1 ++ l2) = Trace.writes l1 ++ Trace.writes l2.
Proof. apply flat_map_app. Qed.

Lemma requests_app l1 l2 :
  Trace.requests (l1 ++ l2) = Trace.requests l1 ++ Trace.requests l2.
Proof. apply flat_map_app. Qed.

(** X8: over a whole run the trace holds one submission per frame, each
    of one command buffer with one draw of [cubeVertexCount] vertices,
    one write of the uniform buffer per frame, and one request for an
    animation frame more than frames. *)
Theorem one_submission_per_frame k p0 p :
  started p0 -> run_of k p0 p ->
  List.length (Trace.submissions (trace (world p))) = k /\
  Forall (one_cube_draw cube) (Trace.submissions (trace (world p))) /\
  List.length (Trace.writes (trace (world p))) = k /\
  Trace.requests (trace (world p)) = repeat CbFrame (S k).
Proof.
  intros Hstart Hrun.
  induction Hrun as [p | k p0 p cw ch t Hrun IH Hcw Hch
                       | k p0 p rest Hrun IH Hpending].
  - destruct (started_eq cube lib p Hstart)
      as (env & cw & ch & t & _ & _ & _ & _ & ->).
    repeat split. constructor.
  - destruct (IH Hstart) as (H1 & H2 & H3 & H4).
    destruct p as [g [c k' f ts bs n cbs tr]]. repeat split; assumption.
  - destruct (IH Hstart) as (H1 & H2 & H3 & H4).
    assert (Hinv : invocation (dequeue rest p)).
    { exists p, rest. split; [|split; [assumption|reflexivity]].
      exists p0. split; [assumption | now apply run_of_rtc with k]. }
    destruct (invocation_frame cube lib _ Hinv)
      as (t & tex & ub & _ & _ & _ & _ & _ & _ & _ & Heq).
    rewrite Heq. cbn [fst]. unfold frame_post. cbn [world trace].
    assert (Htr : trace (world (dequeue rest p)) = trace (world p)).
    { destruct p as [g [c k' f ts bs n cbs tr]]. reflexivity. }
    rewrite Htr.
    assert (Hs : Trace.submissions (resize_trace (dequeue rest p) t) = []).
    { unfold resize_trace. now destruct (resize_needed _ _ _). }
    assert (Hw : Trace.writes (resize_trace (dequeue rest p) t) = []).
    { unfold resize_trace. now destruct (resize_needed _ _ _). }
    assert (Hq : Trace.requests (resize_trace (dequeue rest p) t) = []).
    { unfold resize_trace. now destruct (resize_needed _ _ _). }
    rewrite !submissions_app, !writes_app, !requests_app, Hs, Hw, Hq.
    cbn [app]. unfold render_trace.
    cbn [Trace.submissions Trace.writes Trace.requests flat_map app].
    rewrite !length_app. cbn [List.length].
    split; [lia|]. split.
    { apply Forall_app. split; [assumption|].
      constructor; [|constructor]. eexists. split; reflexivity. }
    split; [lia|].
    rewrite H4. symmetry. apply (repeat_cons (S k) CbFrame).
Qed.

(** ** Set-up that fails, and set-up without a layout *)

(** X9: a set-up that fails leaves no buffer, no texture and no pending
    callback behind, so no frame ever runs; the callback is registered if
    and only if the host had everything.  When all that is missing is the
    WebGPU context, the canvas has been resized all the same (lines 21
    and 22 come before line 27). *)
Theorem failed_setup_leaves_nothing env cw ch t :
  let w := fst (main env (initial_world cw ch t)) in
  (capable env = false ->
   buffers w = ∅ /\ textures w = ∅ /\ animation_callbacks w = [] /\
   Trace.requests (trace w) = []) /\
  (animation_callbacks w = [CbFrame] <-> capable env = true) /\
  (navigator_gpu env = true -> adapter_found env = true ->
   device_granted env = true -> defined (shader_file env) = true ->
   canvas_element env = true -> webgpu_context env = false ->
   width (canvas w)
   = Host.reflect_unsigned_long 300
       (JS.mul (JS.of_Z cw) (window_devicePixelRatio env)) /\
   height (canvas w)
   = Host.reflect_unsigned_long 150
       (JS.mul (JS.of_Z ch) (window_devicePixelRatio env))).
Proof.
  intros w.
  assert (Hfail : capable env = false ->
            buffers w = ∅ /\ textures w = ∅ /\ animation_callbacks w = [] /\
            Trace.requests (trace w) = []).
  { subst w. unfold capable, main, initial_world.
    destruct (navigator_gpu env); [|repeat split].
    destruct (adapter_found env); [|repeat split].
    destruct (device_granted env); [|repeat split].
    destruct (shader_file env) as [code|]; [|repeat split].
    destruct (canvas_element env); [|repeat split].
    destruct (webgpu_context env); [discriminate|]. repeat split. }
  split; [exact Hfail|]. split.
  - split.
    + intros Hcb. destruct (capable env) eqn:E; [reflexivity|].
      destruct (Hfail eq_refl) as (_ & _ & H & _). congruence.
    + intros Hcap. subst w. now rewrite main_eq.
  - intros Hgpu Had Hdev Hsh Hcv Hctx. subst w.
    unfold main, initial_world. rewrite Hgpu, Had, Hdev, Hcv, Hctx.
    destruct (shader_file env) as [code|]; [|discriminate].
    split; reflexivity.
Qed.

(** X10: which exception ends a failing set-up is decided by the first
    thing the host lacks, in the order of the module's statements: a
    TypeError for a missing [navigator.gpu], a null adapter, a missing
    canvas or a null context, a rejection for [requestDevice] and for
    [loadFile]. *)
Theorem first_missing_capability_decides env w :
  (navigator_gpu env = false ->
   snd (main env w) = inl (TypeError "navigator.gpu is undefined")) /\
  (navigator_gpu env = true -> adapter_found env = false ->
   snd (main env w) = inl (TypeError "adapter is null")) /\
  (navigator_gpu env = true -> adapter_found env = true ->
   device_granted env = false ->
   snd (main env w) = inl (Rejected "requestDevice")) /\
  (navigator_gpu env = true -> adapter_found env = true ->
   device_granted env = true -> shader_file env = None ->
   snd (main env w) = inl (Rejected "loadFile")) /\
  (navigator_gpu env = true -> adapter_found env = true ->
   device_granted env = true -> defined (shader_file env) = true ->
   canvas_element env = false ->
   snd (main env w) = inl (TypeError "canvas is null")) /\
  (navigator_gpu env = true -> adapter_found env = true ->
   device_granted env = true -> defined (shader_file env) = true ->
   canvas_element env = true -> webgpu_context env = false ->
   snd (main env w) = inl (TypeError "context is null")).
Proof.
  unfold main. destruct w as [c k f ts bs n cbs tr].
  repeat split.
  - intros ->. reflexivity.
  - intros -> ->. reflexivity.
  - intros -> -> ->. reflexivity.
  - intros -> -> -> ->. reflexivity.
  - intros -> -> -> Hsh ->.
    destruct (shader_file env); [reflexivity|discriminate].
  - intros -> -> -> Hsh -> ->.
    destruct (shader_file env); [reflexivity|discriminate].
Qed.


(** ** What a draw uses *)

Lemma handles_constant p0 p :
  started p0 -> rtc step p0 p ->
  renderPipeline (globals p) = renderPipeline (globals p0) /\
  uniformBindGroup (globals p) = uniformBindGroup (globals p0) /\
  verticesBuffer (globals p) = verticesBuffer (globals p0) /\
  uniformBuffer (globals p) = uniformBuffer (globals p0).
Proof.
  intros Hstart. revert p.
  apply (rtc_ind_r (fun p =>
    renderPipeline (globals p) = renderPipeline (globals p0) /\
    uniformBindGroup (globals p) = uniformBindGroup (globals p0) /\
    verticesBuffer (globals p) = verticesBuffer (globals p0) /\
    uniformBuffer (globals p) = uniformBuffer (globals p0))).
  - repeat split.
  - intros y z Hy Hstep IH.
    destruct Hstep as [y cw ch t Hcw Hch | y rest Hpending]; [exact IH|].
    assert (Hinv : invocation (dequeue rest y)).
    { exists y, rest. split; [|split; [assumption|reflexivity]].
      exists p0. split; assumption. }
    destruct (invocation_frame cube lib _ Hinv)
      as (t & tex & ub & _ & _ & _ & _ & _ & _ & _ & Heq).
    rewrite Heq. exact IH.
Qed.

(** X12: every frame of a run draws with what set-up created: its pass
    sets the pipeline, bind group 0 and vertex buffer 0 of set-up, in
    this order, before its one draw; and that vertex buffer holds the
    bytes of [cubeVertexArray]. *)
Theorem draw_uses_what_setup_created p0 p rest :
  started p0 -> rtc step p0 p ->
  animation_callbacks (world p) = CbFrame :: rest ->
  exists pass,
    Trace.submissions (frame_events (dequeue rest p))
      = [[ {| cb_label := "frame"; cb_passes := [pass] |} ]] /\
    pass_commands pass
      = [ SetPipeline (renderPipeline (globals p0));
          SetBindGroup 0 (uniformBindGroup (globals p0));
          SetVertexBuffer 0 (verticesBuffer (globals p0));
          Draw (cubeVertexCount cube) ] /\
    exists vb,
      buffers (world (dequeue rest p)) !! verticesBuffer (globals p0) = Some vb /\
      buf_bytes vb = TypedArray.buffer (cubeVertexArray cube).
Proof.
  intros Hstart Hrun Hpending.
  destruct (handles_constant p0 p Hstart Hrun) as (Hrp & Hbg & Hvb & _).
  assert (Hinv : invocation (dequeue rest p)).
  { exists p, rest. split; [|split; [assumption|reflexivity]].
    exists p0. split; assumption. }
  destruct (invocation_consistent cube lib _ Hinv) as [Hc _].
  destruct (invocation_frame cube lib _ Hinv)
    as (t & tex & ub & _ & _ & _ & _ & _ & _ & _ & Heq).
  rewrite (frame_events_post cube lib _ t ub Heq).
  eexists. split.
  { unfold Trace.submissions. rewrite flat_map_app.
    unfold resize_trace. destruct (resize_needed _ _ _); reflexivity. }
  split.
  { cbn [pass_commands dequeue globals]. now rewrite Hrp, Hbg, Hvb. }
  eexists. split.
  { rewrite <- Hvb. exact (vertices_uploaded _ _ Hc). }
  reflexivity.
Qed.

End RunProofs.

(** ** These theorems at the concrete runs *)

Lemma enlarged_frame_reachable :
  reachable Sample.cube Sample.lib (fst (run Sample.enlarged)).
Proof. apply frame_reachable, enlarged_invocation. Qed.


(** X1 at the fractional canvas. *)
Lemma unkept_size_resizes_every_frame_witness :
  invoked Sample.fractional /\
  kept 300 (currentWidth Sample.fractional) = false /\
  JS.is_zero (currentWidth Sample.fractional) = false /\
  JS.is_zero (currentHeight Sample.fractional) = false /\
  size_differs Sample.fractional = true /\
  existsb Trace.texture_lifecycle (events Sample.fractional) = true.
Proof.
  split; [exact fractional_invocation|]. do 3 (split; [reflexivity|]).
  exact (unkept_size_resizes_every_frame Sample.cube Sample.lib
           Sample.fractional fractional_invocation (or_introl eq_refl)
           eq_refl eq_refl).
Defined.

(** X2 after the frame at the enlarged canvas (settled) and after the
    frame at the fractional one (not settled). *)
Lemma next_frame_resizes_iff_unkept_witness :
  (invoked Sample.enlarged /\
   invoked Runs.enlarged_again /\
   existsb Trace.texture_lifecycle (events Runs.enlarged_again) = false) /\
  (invoked Sample.fractional /\
   invoked Runs.fractional_again /\
   existsb Trace.texture_lifecycle (events Runs.fractional_again) = true).
Proof.
  split.
  - split; [exact enlarged_invocation|].
    exact (next_frame_resizes_iff_unkept Sample.cube Sample.lib
             Sample.enlarged 32 enlarged_invocation).
  - split; [exact fractional_invocation|].
    exact (next_frame_resizes_iff_unkept Sample.cube Sample.lib
             Sample.fractional 16 fractional_invocation).
Defined.

(** X3 at the plain start. *)
Lemma first_frame_resizes_iff_unkept_witness :
  let q := next_invocation 16 (Sample.started Sample.one 300 150) in
  started Sample.cube Sample.lib (Sample.started Sample.one 300 150) /\
  invoked q /\
  existsb Trace.texture_lifecycle (events q) = false.
Proof.
  intros q. split; [exact sample_plain_started|].
  pose proof (first_frame_resizes_iff_unkept Sample.cube Sample.lib
                (Sample.started Sample.one 300 150) 16 sample_plain_started)
    as H.
  cbv zeta in H. destruct H as [H1 H2]. split; [exact H1|].
  subst q. rewrite H2. vm_compute. reflexivity.
Defined.

(** X4 after the frame at the enlarged canvas. *)
Lemma one_live_depth_texture_witness :
  let p := fst (run Sample.enlarged) in
  reachable Sample.cube Sample.lib p /\
  exists t tex,
    depthTexture (globals p) = Some t /\
    textures (world p) !! t = Some tex /\
    tex_destroyed tex = false /\
    tex_width tex = width (canvas (world p)) /\
    tex_height tex = height (canvas (world p)) /\
    forall (h : handle) tex',
      textures (world p) !! h = Some tex' -> h <> t -> tex_destroyed tex' = true.
Proof.
  intros p. split; [exact enlarged_frame_reachable|].
  exact (one_live_depth_texture Sample.cube Sample.lib p
           enlarged_frame_reachable).
Defined.

(** X5 after the frame at the enlarged canvas. *)
Lemma aspect_tracks_canvas_witness :
  let p := fst (run Sample.enlarged) in
  reachable Sample.cube Sample.lib p /\
  aspect (globals p)
  = JS.div (JS.of_Z (width (canvas (world p))))
      (JS.of_Z (height (canvas (world p)))).
Proof.
  intros p. split; [exact enlarged_frame_reachable|].
  exact (aspect_tracks_canvas Sample.cube Sample.lib p
           enlarged_frame_reachable).
Defined.

(** X6 after the frame at the enlarged canvas. *)
Lemma descriptor_views_current_depth_texture_witness :
  let p := fst (run Sample.enlarged) in
  reachable Sample.cube Sample.lib p /\
  exists t tex,
    depth_view (renderPassDescriptor (globals p)) = ViewOfTexture t /\
    depthTexture (globals p) = Some t /\
    textures (world p) !! t = Some tex /\
    tex_destroyed tex = false.
Proof.
  intros p. split; [exact enlarged_frame_reachable|].
  exact (descriptor_views_current_depth_texture Sample.cube Sample.lib p
           enlarged_frame_reachable).
Defined.

(** X7 at the enlarged canvas. *)
Lemma attachments_have_one_size_witness :
  invoked Sample.enlarged /\
  exists w h t tex pass,
    Trace.submissions (events Sample.enlarged)
      = [[ {| cb_label := "frame"; cb_passes := [pass] |} ]] /\
    pass_color_view pass = Some (ViewOfCanvas w h) /\
    pass_depth_view pass = ViewOfTexture t /\
    textures (world (fst (run Sample.enlarged))) !! t = Some tex /\
    tex_width tex = w /\ tex_height tex = h /\
    w = width (canvas (world (fst (run Sample.enlarged)))) /\
    h = height (canvas (world (fst (run Sample.enlarged)))).
Proof.
  split; [exact enlarged_invocation|].
  exact (attachments_have_one_size Sample.cube Sample.lib Sample.enlarged
           enlarged_invocation).
Defined.

(** X8 on the run of one frame that ends after the enlarged canvas. *)
Lemma one_submission_per_frame_witness :
  let p0 := Sample.started Sample.one 300 150 in
  let p := fst (run Sample.enlarged) in
  started Sample.cube Sample.lib p0 /\
  run_of Sample.cube Sample.lib 1 p0 p /\
  List.length (Trace.submissions (trace (world p))) = 1%nat /\
  Forall (one_cube_draw Sample.cube) (Trace.submissions (trace (world p))) /\
  List.length (Trace.writes (trace (world p))) = 1%nat /\
  Trace.requests (trace (world p)) = repeat CbFrame 2.
Proof.
  intros p0 p.
  assert (Hrun : run_of Sample.cube Sample.lib 1 p0 p).
  { apply (run_frame Sample.cube Sample.lib 0 p0 (host_update 400 300 16 p0) []).
    - apply run_host; [apply run_none | | ]; now apply client_ok_dec.
    - reflexivity. }
  split; [exact sample_plain_started|]. split; [exact Hrun|].
  exact (one_submission_per_frame Sample.cube Sample.lib 1 p0 p
           sample_plain_started Hrun).
Defined.

(** X9 on the browser whose canvas has no WebGPU context, and on the
    capable one. *)
Lemma failed_setup_leaves_nothing_witness :
  let w := fst (main Sample.cube Sample.lib Runs.env_without_context
                  (initial_world 300 150 0)) in
  capable Runs.env_without_context = false /\
  (buffers w = ∅ /\ textures w = ∅ /\ animation_callbacks w = [] /\
   Trace.requests (trace w) = []) /\
  width (canvas w) = 300 /\
  capable (Sample.env Sample.one) = true /\
  animation_callbacks
    (fst (main Sample.cube Sample.lib (Sample.env Sample.one)
            (initial_world 300 150 0))) = [CbFrame].
Proof.
  intros w.
  destruct (failed_setup_leaves_nothing Sample.cube Sample.lib
              Runs.env_without_context 300 150 0) as (H1 & _ & H3).
  destruct (failed_setup_leaves_nothing Sample.cube Sample.lib
              (Sample.env Sample.one) 300 150 0) as (_ & H2 & _).
  split; [reflexivity|]. split; [exact (H1 eq_refl)|].
  split; [exact (proj1 (H3 eq_refl eq_refl eq_refl eq_refl eq_refl eq_refl))|].
  split; [reflexivity|]. exact (proj2 H2 eq_refl).
Defined.

(** X10 on the six browsers that lack one thing each. *)
Lemma first_missing_capability_decides_witness :
  let w := initial_world 300 150 0 in
  snd (main Sample.cube Sample.lib (Runs.env_lacking 0) w)
  = inl (TypeError "navigator.gpu is undefined") /\
  snd (main Sample.cube Sample.lib (Runs.env_lacking 1) w)
  = inl (TypeError "adapter is null") /\
  snd (main Sample.cube Sample.lib (Runs.env_lacking 2) w)
  = inl (Rejected "requestDevice") /\
  snd (main Sample.cube Sample.lib (Runs.env_lacking 3) w)
  = inl (Rejected "loadFile") /\
  snd (main Sample.cube Sample.lib (Runs.env_lacking 4) w)
  = inl (TypeError "canvas is null") /\
  snd (main Sample.cube Sample.lib (Runs.env_lacking 5) w)
  = inl (TypeError "context is null").
Proof.
  intros w.
  pose proof (fun k => first_missing_capability_decides Sample.cube Sample.lib
                         (Runs.env_lacking k) w) as H.
  split; [exact (proj1 (H 0%nat) eq_refl)|].
  split; [exact (proj1 (proj2 (H 1%nat)) eq_refl eq_refl)|].
  split; [exact (proj1 (proj2 (proj2 (H 2%nat))) eq_refl eq_refl eq_refl)|].
  split; [exact (proj1 (proj2 (proj2 (proj2 (H 3%nat))))
                   eq_refl eq_refl eq_refl eq_refl)|].
  split; [exact (proj1 (proj2 (proj2 (proj2 (proj2 (H 4%nat)))))
                   eq_refl eq_refl eq_refl eq_refl eq_refl)|].
  exact (proj2 (proj2 (proj2 (proj2 (proj2 (H 5%nat)))))
           eq_refl eq_refl eq_refl eq_refl eq_refl eq_refl).
Defined.


(** X12 from the plain start to the enlarged canvas. *)
Lemma draw_uses_what_setup_created_witness :
  let p0 := Sample.started Sample.one 300 150 in
  let p := host_update 400 300 16 p0 in
  started Sample.cube Sample.lib p0 /\
  rtc (step Sample.cube Sample.lib) p0 p /\
  animation_callbacks (world p) = [CbFrame] /\
  exists pass,
    Trace.submissions (events (dequeue [] p))
      = [[ {| cb_label := "frame"; cb_passes := [pass] |} ]] /\
    pass_commands pass
      = [ SetPipeline (renderPipeline (globals p0));
          SetBindGroup 0 (uniformBindGroup (globals p0));
          SetVertexBuffer 0 (verticesBuffer (globals p0));
          Draw (cubeVertexCount Sample.cube) ] /\
    exists vb,
      buffers (world (dequeue [] p)) !! verticesBuffer (globals p0) = Some vb /\
      buf_bytes vb = TypedArray.buffer (cubeVertexArray Sample.cube).
Proof.
  intros p0 p.
  assert (Hrun : rtc (step Sample.cube Sample.lib) p0 p).
  { apply rtc_once. constructor; now apply client_ok_dec. }
  split; [exact sample_plain_started|]. split; [exact Hrun|].
  split; [reflexivity|].
  exact (draw_uses_what_setup_created Sample.cube Sample.lib p0 p []
           sample_plain_started Hrun eq_refl).
Defined.

(** C6 at the squeezed canvas, whose scaled width is 0.5. *)
Lemma sub_pixel_size_creates_empty_depth_texture_witness :
  invoked Runs.squeezed /\
  JS.is_zero (currentWidth Runs.squeezed) = false /\
  JS.is_zero (currentHeight Runs.squeezed) = false /\
  Host.reflect_unsigned_long 300 (currentWidth Runs.squeezed) = 0 /\
  exists t tex rest pass,
    snd (run Runs.squeezed) = inr tt /\
    resize_needed (currentWidth Runs.squeezed) (currentHeight Runs.squeezed)
      Runs.squeezed = true /\
    depthTexture (globals Runs.squeezed) = Some t /\
    events Runs.squeezed
    = EvDestroyTexture t
      :: EvCreateTexture (next_handle (world Runs.squeezed))
           (tex_width tex) (tex_height tex)
      :: rest /\
    depthTexture (globals (fst (run Runs.squeezed)))
    = Some (next_handle (world Runs.squeezed)) /\
    textures (world (fst (run Runs.squeezed)))
      !! next_handle (world Runs.squeezed) = Some tex /\
    tex_destroyed tex = false /\
    (tex_width tex = 0 \/ tex_height tex = 0) /\
    Trace.submissions (events Runs.squeezed)
    = [[ {| cb_label := "frame"; cb_passes := [pass] |} ]] /\
    pass_depth_view pass = ViewOfTexture (next_handle (world Runs.squeezed)).
Proof.
  assert (Hw : JS.is_zero (currentWidth Runs.squeezed) = false)
    by (vm_compute; reflexivity).
  assert (Hh : JS.is_zero (currentHeight Runs.squeezed) = false)
    by (vm_compute; reflexivity).
  assert (H0 : Host.reflect_unsigned_long 300 (currentWidth Runs.squeezed) = 0)
    by (vm_compute; reflexivity).
  split; [exact squeezed_invocation|]. split; [exact Hw|].
  split; [exact Hh|]. split; [exact H0|].
  exact (sub_pixel_size_creates_empty_depth_texture Sample.cube Sample.lib
           Runs.squeezed squeezed_invocation Hw Hh (or_introl H0)).
Defined.
